(** * MCP demo: weather and memory tools behind a chat orchestrator

    A shallow embedding of [mcp_tools.py] (WeatherMCP, MemoryMCP, SimpleMCP)
    and of [mcp_demo.py] (SmartAI), with the properties of the tool
    dispatcher, the preference/conversation store and the chat turn.

    Conventions of the model.
    - Python [str] is [string]; [str.lower] is ASCII lower-casing and
      [a in b] on strings is the contiguous-substring test.
    - A Python [dict] with string keys is a [gmap string _]; a [list] is a
      [list].
    - Every method runs in one state-and-exception monad over the [world]
      (the transcript, the in-memory document and the log of outbound
      calls).  An exception carries the text [str(e)] renders.
    - The outside world (model endpoint, geocoder, forecast provider, clock,
      [json] and [str] of library objects) enters as the fields of an
      [environment].
    - A tool takes and returns strings and lists of strings, as the schemas
      of the tools say; what [print] writes is left out. *)

From Stdlib Require Import ZArith QArith Ascii String List Lia.
From stdpp Require Import base option list strings pretty gmap fin_maps.

Local Open Scope string_scope.
Local Open Scope Z_scope.
Local Open Scope list_scope.

(** ** Strings as Python uses them *)

Module PyStr.

Definition lower_ascii (c : ascii) : ascii :=
  let n := nat_of_ascii c in
  if ((65 <=? n) && (n <=? 90))%nat then ascii_of_nat (n + 32) else c.

(** [s.lower()] *)
Fixpoint lower (s : string) : string :=
  match s with
  | EmptyString => EmptyString
  | String c t => String (lower_ascii c) (lower t)
  end.

(** [s.startswith(p)] *)
Fixpoint startswith (p s : string) : bool :=
  match p, s with
  | EmptyString, _ => true
  | String _ _, EmptyString => false
  | String a p', String b s' => if ascii_dec a b then startswith p' s' else false
  end.

(** [needle in hay] *)
Fixpoint contains (needle hay : string) : bool :=
  startswith needle hay ||
  match hay with
  | EmptyString => false
  | String _ t => contains needle t
  end.

(** truth value of a string: [if s:] *)
Definition truthy (s : string) : bool :=
  match s with EmptyString => false | String _ _ => true end.

(** [l[-n:]] for a positive literal [n] *)
Definition last_n {A} (n : nat) (l : list A) : list A :=
  drop (length l - n) l.

End PyStr.

(** ** The stored document and the result payloads *)

(** One element of [memory["conversations"]]. *)
Record conversation := Conversation {
  conv_topic : string;
  conv_summary : string;
  conv_timestamp : string
}.

(** [self.memory] of MemoryMCP: a dict in which the keys ["preferences"] and
    ["conversations"] may each be absent. *)
Record document := Document {
  doc_preferences : option (gmap string (list string));
  doc_conversations : option (list conversation)
}.

Definition empty_document : document := Document None None.

(** The value under one key of a result payload. *)
Inductive value :=
| VStr (s : string)
| VList (l : list string)
| VConversations (l : list conversation).

(** A tool result: a dict from key to value. *)
Abbreviation payload := (gmap string value).

Definition error_payload (msg : string) : payload := {[ "error" := VStr msg ]}.

(** ** The transcript and the requests sent to the model endpoint *)

(** One element of [conversation_history]. *)
Inductive entry :=
| UserMessage (content : string)
    (* {"role": "user", "content": message} *)
| AssistantText (content : option string)
    (* {"role": "assistant", "content": content} *)
| AssistantCall (name : string) (arguments : string)
    (* {"role": "assistant", "content": None, "function_call": {name, arguments}} *)
| FunctionResult (name : string) (content : string).
    (* {"role": "function", "name": name, "content": json.dumps(tool_result)} *)

(** One parameter of a function schema: its name, type and description. *)
Record property := Property {
  prop_name : string;
  prop_type : string;
  prop_description : string
}.

(** One element of the [functions] list of [SmartAI.chat]. *)
Record function_schema := FunctionSchema {
  fn_name : string;
  fn_description : string;
  fn_properties : list property;
  fn_required : option (list string)
}.

(** Keyword arguments of [client.chat.completions.create]. *)
Record request := Request {
  req_model : string;
  req_messages : list entry;
  req_functions : option (list function_schema);
  req_function_call : option string;
  req_temperature : Q
}.

(** [message.function_call] *)
Record function_call := FunctionCall {
  fc_name : string;
  fc_arguments : string
}.

(** [response.choices[0].message]: an object with the attributes [content]
    and [function_call], or a plain dict. *)
Inductive message :=
| MessageObject (content : option string) (call : option function_call)
| MessageDict (items : gmap string string).

(** ** Responses of the weather provider *)

(** One element of [geo_data["results"]]; a key may be missing. *)
Record location := Location {
  loc_name : option string;
  loc_country : option string;
  loc_latitude : option Q;
  loc_longitude : option Q
}.

(** [geo_data]: the key ["results"] may be missing. *)
Record geo_data := GeoData {
  geo_results : option (list location)
}.

(** A non-empty [weather_data["current_weather"]]; a key may be missing. *)
Record current_weather := CurrentWeather {
  cw_temperature : option Q;
  cw_windspeed : option Q;
  cw_winddirection : option Q;
  cw_weathercode : option Z
}.

(** [weather_data]: [None] when ["current_weather"] is missing, null or
    empty. *)
Record weather_data := WeatherData {
  wd_current_weather : option current_weather
}.

(** ** The world and the monad of the methods *)

(** An outbound call, as it is logged. *)
Inductive call :=
| ChatCompletion (req : request)
| GeocodingGet (name : string) (count : Z)
| ForecastGet (latitude longitude : Q)
| MemoryFileWrite (doc : document).

Record world := World {
  conversation_history : list entry;
  memory : document;
  calls : list call
}.

(** What running a piece of code ends in. *)
Inductive outcome (A : Type) :=
| Returns (a : A)
| Raises (e : string).
Arguments Returns {A} a.
Arguments Raises {A} e.

Definition M (A : Type) : Type := world -> outcome A * world.

(** [raise Exception(e)] *)
Definition raise {A} (e : string) : M A := fun w => (Raises e, w).

#[global] Instance M_ret : MRet M := fun A a w => (Returns a, w).

#[global] Instance M_bind : MBind M := fun A B k m w =>
  match m w with
  | (Returns a, w') => k a w'
  | (Raises e, w') => (Raises e, w')
  end.

(** [try: m  except Exception as e: h e] *)
Definition try_except {A} (m : M A) (h : string -> M A) : M A :=
  fun w =>
    match m w with
    | (Returns a, w') => (Returns a, w')
    | (Raises e, w') => h e w'
    end.

Definition get_world : M world := fun w => (Returns w, w).

Definition set_memory (d : document) : M unit :=
  fun w => (Returns tt, World (conversation_history w) d (calls w)).

(** [self.conversation_history.append(e)] *)
Definition history_append (e : entry) : M unit :=
  fun w => (Returns tt, World (conversation_history w ++ [e]) (memory w) (calls w)).

Definition log_call (c : call) : M unit :=
  fun w => (Returns tt, World (conversation_history w) (memory w) (calls w ++ [c])).

(** [d[key]] on a dict whose key may be missing. *)
Definition getitem {A} (key : string) (o : option A) : M A :=
  match o with
  | Some a => mret a
  | None => raise ("'" +:+ key +:+ "'")
  end.

(** An outcome handed back by the outside world enters the monad. *)
Definition from_outcome {A} (o : outcome A) : M A :=
  match o with
  | Returns a => mret a
  | Raises e => raise e
  end.

(** ** WeatherMCP: the description table *)

Module WeatherMCP.

Definition weather_codes : list (Z * string) :=
  [ (0, "Clear sky"); (1, "Mainly clear"); (2, "Partly cloudy"); (3, "Overcast");
    (45, "Foggy"); (48, "Depositing rime fog"); (51, "Light drizzle"); (53, "Moderate drizzle");
    (55, "Dense drizzle"); (61, "Slight rain"); (63, "Moderate rain"); (65, "Heavy rain");
    (80, "Slight rain showers"); (81, "Moderate rain showers"); (82, "Violent rain showers");
    (95, "Thunderstorm"); (96, "Thunderstorm with slight hail"); (99, "Thunderstorm with heavy hail") ].

(** [weather_codes.get(code, "Unknown conditions")] on the dict literal. *)
Definition _get_weather_description (code : Z) : string :=
  default "Unknown conditions" ((list_to_map weather_codes : gmap Z string) !! code).

End WeatherMCP.

(** ** The outside world *)

Record environment := Environment {
  (** [client.chat.completions.create] on the keyword arguments [req],
      followed by [.choices[0].message]: the message, or the exception either
      step raises.  The first argument is the log of the calls made so far,
      so that the answer may change from one call to the next. *)
  chat_completions_create : list call -> request -> outcome message;
  (** [requests.get(geo_url, params={"name": name, "count": count}).json()] *)
  geocoding_get : list call -> string -> Z -> outcome geo_data;
  (** [requests.get(weather_url, params={latitude, longitude, ...}).json()] *)
  forecast_get : list call -> Q -> Q -> outcome weather_data;
  (** [datetime.datetime.now().isoformat()] *)
  now_isoformat : list call -> string;
  (** [json.loads(arguments)], to be passed on as keyword arguments: the
      mapping, or the exception of a text that does not denote one. *)
  json_loads : string -> outcome (gmap string string);
  (** [json.dumps(tool_result)]; it does not raise on a payload of strings
      and lists. *)
  json_dumps : payload -> string;
  (** [str(message)] of a message of the client library. *)
  str_message : message -> string;
  (** [f"{x}"] of a number of a provider's response. *)
  str_number : Q -> string
}.

(** ** The program *)

Section Program.

Variable env : environment.

(** *** WeatherMCP.get_weather *)

Definition requests_get_geocoding (name : string) (count : Z) : M geo_data :=
  w ← get_world;
  log_call (GeocodingGet name count);;
  from_outcome (geocoding_get env (calls w) name count).

Definition requests_get_forecast (latitude longitude : Q) : M weather_data :=
  w ← get_world;
  log_call (ForecastGet latitude longitude);;
  from_outcome (forecast_get env (calls w) latitude longitude).

Definition get_weather (city country : string) : M payload :=
  try_except
    (geo_data ← requests_get_geocoding city 1;
     match geo_results geo_data with
     | None | Some [] =>
         mret (error_payload ("City '" +:+ city +:+ "' not found"))
     | Some (location :: _) =>
         lat ← getitem "latitude" (loc_latitude location);
         lon ← getitem "longitude" (loc_longitude location);
         weather_data ← requests_get_forecast lat lon;
         match wd_current_weather weather_data with
         | None => mret (error_payload "Weather data unavailable")
         | Some current =>
             name ← getitem "name" (loc_name location);
             temperature ← getitem "temperature" (cw_temperature current);
             windspeed ← getitem "windspeed" (cw_windspeed current);
             winddirection ← getitem "winddirection" (cw_winddirection current);
             weathercode ← getitem "weathercode" (cw_weathercode current);
             mret ({[ "city" := VStr name;
                      "country" := VStr (default "" (loc_country location));
                      "temperature" := VStr (str_number env temperature +:+ "°C");
                      "wind_speed" := VStr (str_number env windspeed +:+ " km/h");
                      "wind_direction" := VStr (str_number env winddirection +:+ "°");
                      "conditions" := VStr (WeatherMCP._get_weather_description weathercode);
                      "coordinates" := VStr (str_number env lat +:+ ", " +:+ str_number env lon) ]}
                   : payload)
         end
     end)
    (fun e => mret (error_payload ("Weather data unavailable: " +:+ e))).

(** *** MemoryMCP *)

(** The write of the whole document; a failure of the write is swallowed by
    the method and leaves the in-memory document as it is. *)
Definition _save_memory : M unit :=
  w ← get_world;
  log_call (MemoryFileWrite (memory w)).

Definition store_preference (category preference : string) : M payload :=
  w ← get_world;
  let mem := memory w in
  (* if "preferences" not in self.memory: self.memory["preferences"] = {} *)
  let prefs0 : gmap string (list string) :=
    match doc_preferences mem with Some p => p | None => ∅ end in
  (* if category not in prefs: prefs[category] = [] *)
  let prefs1 :=
    match prefs0 !! category with Some _ => prefs0 | None => <[category := []]> prefs0 end in
  (* if preference not in prefs[category]: prefs[category].append(preference) *)
  let items := default [] (prefs1 !! category) in
  let prefs2 :=
    if bool_decide (preference ∈ items) then prefs1
    else <[category := items ++ [preference]]> prefs1 in
  set_memory (Document (Some prefs2) (doc_conversations mem));;
  _save_memory;;
  mret ({[ "status" := VStr "stored";
           "category" := VStr category;
           "preference" := VStr preference ]} : payload).

Definition get_preferences (category : option string) : M payload :=
  w ← get_world;
  let preferences : gmap string (list string) :=
    default ∅ (doc_preferences (memory w)) in
  match category with
  | Some c =>
      if PyStr.truthy c
      then mret ({[ c := VList (default [] (preferences !! c)) ]} : payload)
      else mret (VList <$> preferences)
  | None => mret (VList <$> preferences)
  end.

Definition store_conversation (topic summary : string) : M payload :=
  w ← get_world;
  let mem := memory w in
  (* if "conversations" not in self.memory: self.memory["conversations"] = [] *)
  let conversations0 := match doc_conversations mem with Some l => l | None => [] end in
  let conversation := Conversation topic summary (now_isoformat env (calls w)) in
  set_memory (Document (doc_preferences mem) (Some (conversations0 ++ [conversation])));;
  _save_memory;;
  mret ({[ "status" := VStr "stored"; "topic" := VStr topic ]} : payload).

Definition get_conversations (topic : option string) : M payload :=
  w ← get_world;
  let conversations := default [] (doc_conversations (memory w)) in
  let recent : payload := {[ "conversations" := VConversations (PyStr.last_n 5 conversations) ]} in
  match topic with
  | Some t =>
      if PyStr.truthy t
      then
        let filtered :=
          List.filter (fun c => PyStr.contains (PyStr.lower t) (PyStr.lower (conv_topic c)))
                      conversations in
        mret ({[ "conversations" := VConversations filtered ]} : payload)
      else mret recent
  | None => mret recent
  end.

(** *** SimpleMCP *)

Definition process_tool_call (tool_name : string) (kwargs : gmap string string) : M payload :=
  if bool_decide (tool_name = "get_weather") then
    let city := default "" (kwargs !! "city") in
    let country := default "" (kwargs !! "country") in
    get_weather city country
  else if bool_decide (tool_name = "store_preference") then
    let category := default "" (kwargs !! "category") in
    let preference := default "" (kwargs !! "preference") in
    store_preference category preference
  else if bool_decide (tool_name = "get_preferences") then
    let category := kwargs !! "category" in
    get_preferences category
  else if bool_decide (tool_name = "store_conversation") then
    let topic := default "" (kwargs !! "topic") in
    let summary := default "" (kwargs !! "summary") in
    store_conversation topic summary
  else if bool_decide (tool_name = "get_conversations") then
    let topic := kwargs !! "topic" in
    get_conversations topic
  else
    mret (error_payload ("Unknown tool: " +:+ tool_name)).

Definition get_available_tools : gmap string string :=
  {[ "get_weather" := "Get current weather for a city";
     "store_preference" := "Store a user preference";
     "get_preferences" := "Get stored user preferences";
     "store_conversation" := "Store conversation summary";
     "get_conversations" := "Get conversation history" ]}.

(** The call [self.mcp.process_tool_call(function_name, **function_args)]:
    a key of the bundle that names a positional parameter makes the call
    itself raise a TypeError before the body runs. *)
Definition call_process_tool_call (function_name : string)
    (function_args : gmap string string) : M payload :=
  if bool_decide (is_Some (function_args !! "self")) then
    raise "SimpleMCP.process_tool_call() got multiple values for argument 'self'"
  else if bool_decide (is_Some (function_args !! "tool_name")) then
    raise "SimpleMCP.process_tool_call() got multiple values for argument 'tool_name'"
  else process_tool_call function_name function_args.

(** *** SmartAI *)

(** The list [functions] of [chat]. *)
Definition functions : list function_schema :=
  [ FunctionSchema "get_weather" "Get current weather information for a city"
      [ Property "city" "string" "The city name";
        Property "country" "string" "The country (optional)" ]
      (Some ["city"]);
    FunctionSchema "store_preference" "Store a user preference"
      [ Property "category" "string" "Category like 'travel', 'food', etc.";
        Property "preference" "string" "The preference to store" ]
      (Some ["category"; "preference"]);
    FunctionSchema "get_preferences" "Get stored user preferences"
      [ Property "category" "string" "Specific category or all if not specified" ]
      None ].

Definition completions_create (req : request) : M message :=
  w ← get_world;
  log_call (ChatCompletion req);;
  from_outcome (chat_completions_create env (calls w) req).

(** [message.content] *)
Definition message_content (m : message) : M (option string) :=
  match m with
  | MessageObject content _ => mret content
  | MessageDict _ => raise "'dict' object has no attribute 'content'"
  end.

(** [message.function_call], then [.name] and [.arguments] of it *)
Definition message_function_call (m : message) : M function_call :=
  match m with
  | MessageObject _ (Some fc) => mret fc
  | MessageObject _ None => raise "'NoneType' object has no attribute 'name'"
  | MessageDict _ => raise "'dict' object has no attribute 'function_call'"
  end.

(** [hasattr(message, 'function_call') and message.function_call] *)
Definition wants_function_call (m : message) : bool :=
  match m with
  | MessageObject _ (Some _) => true
  | MessageObject _ None => false
  | MessageDict _ => false
  end.

(** [isinstance(message, dict)] *)
Definition isinstance_dict (m : message) : bool :=
  match m with
  | MessageObject _ _ => false
  | MessageDict _ => true
  end.

Definition _handle_function_call (reply : message) : M (option string) :=
  fc ← message_function_call reply;
  let function_name := fc_name fc in
  function_args ← from_outcome (json_loads env (fc_arguments fc));
  (* Call the MCP tool *)
  tool_result ← call_process_tool_call function_name function_args;
  (* Add function call and result to conversation *)
  history_append (AssistantCall function_name (fc_arguments fc));;
  history_append (FunctionResult function_name (json_dumps env tool_result));;
  (* Get final response with tool results *)
  try_except
    (w ← get_world;
     final ← completions_create
       (Request "deepseek-chat" (conversation_history w) None None (7 # 10));
     content ← message_content final;
     history_append (AssistantText content);;
     mret content)
    (fun e => mret (Some ("Error processing tool result: " +:+ e))).

Definition chat (message : string) : M (option string) :=
  (* Add user message to history *)
  history_append (UserMessage message);;
  try_except
    (w ← get_world;
     (* First API call with function definitions *)
     reply ← completions_create
       (Request "deepseek-chat" (conversation_history w) (Some functions) (Some "auto") (7 # 10));
     (* Check if AI wants to call a function *)
     if wants_function_call reply then _handle_function_call reply
     else
       (* content = message.content if isinstance(message, dict) else str(message) *)
       content ← (if isinstance_dict reply then message_content reply
                  else mret (Some (str_message env reply)));
       history_append (AssistantText content);;
       mret content)
    (fun e => mret (Some ("Error: " +:+ e))).

(** The worlds a SmartAI goes through: it starts with an empty transcript,
    and every call of [chat] leads to the next one. *)
Inductive reachable : world -> Prop :=
| reachable_init (mem : document) (log : list call) :
    reachable (World [] mem log)
| reachable_chat (w : world) (message : string) :
    reachable w -> reachable (snd (chat message w)).

End Program.

(** ** Notions the properties are stated with *)


(** [x] occurs exactly once in [l]. *)
Definition occurs_once {A} (x : A) (l : list A) : Prop :=
  ∃ l1 l2 : list A, l = l1 ++ x :: l2 ∧ (x ∉ l1) ∧ (x ∉ l2).

(** The invariant of the stored preferences: no category lists a preference
    twice. *)
Definition distinct_preferences (d : document) : Prop :=
  ∀ prefs category items,
    doc_preferences d = Some prefs → prefs !! category = Some items → NoDup items.

(** The list stored under a category, empty when there is none. *)
Definition preferences_of (d : document) (category : string) : list string :=
  default [] (default ∅ (doc_preferences d) !! category).

(** The stored conversations, none when the key is absent. *)
Definition conversations_of (d : document) : list conversation :=
  default [] (doc_conversations d).

(** The payload [store_preference] returns. *)
Definition stored_preference (category preference : string) : payload :=
  {[ "status" := VStr "stored"; "category" := VStr category; "preference" := VStr preference ]}.

(** The number of forecast requests in a log. *)
Definition forecast_calls (log : list call) : nat :=
  length (List.filter (fun c => match c with ForecastGet _ _ => true | _ => false end) log).

(** The names a request advertises to the model. *)
Definition advertised_names (req : request) : list string :=
  fn_name <$> default [] (req_functions req).

(** The names the dispatcher answers to, in the order of its branches. *)
Definition dispatched_names : list string :=
  [ "get_weather"; "store_preference"; "get_preferences";
    "store_conversation"; "get_conversations" ].

(** A transcript in which every tool-call intent is followed at once by the
    result of the same tool, and no result stands anywhere else. *)
Inductive paired : list entry -> Prop :=
| paired_nil : paired []
| paired_user content h : paired h -> paired (UserMessage content :: h)
| paired_text content h : paired h -> paired (AssistantText content :: h)
| paired_call name arguments content h :
    paired h -> paired (AssistantCall name arguments :: FunctionResult name content :: h).

(** A piece of code that leaves the transcript alone and only adds to the
    log of outbound calls. *)
Definition only_logs {A} (m : M A) : Prop :=
  ∀ w, conversation_history (snd (m w)) = conversation_history w ∧
       ∃ later, calls (snd (m w)) = calls w ++ later.

(** What one chat turn may add to the transcript after the user's entry. *)
Inductive turn_block : list entry -> Prop :=
| block_nothing : turn_block []
| block_text content : turn_block [AssistantText content]
| block_call name arguments result :
    turn_block [AssistantCall name arguments; FunctionResult name result]
| block_call_text name arguments result content :
    turn_block [AssistantCall name arguments; FunctionResult name result;
                AssistantText content].

(** The request of the first step of a chat turn. *)
Definition first_request (history : list entry) : request :=
  Request "deepseek-chat" history (Some functions) (Some "auto") (7 # 10).

(** The documents written to the memory file, in the order of the writes. *)
Definition file_writes (log : list call) : list document :=
  omap (fun c => match c with MemoryFileWrite d => Some d | _ => None end) log.

(** The requests sent to the model endpoint, in the order they were sent. *)
Definition completion_requests (log : list call) : list request :=
  omap (fun c => match c with ChatCompletion req => Some req | _ => None end) log.

(** The payload of a successful weather lookup. *)
Definition weather_report (city country temperature wind_speed wind_direction
    conditions coordinates : string) : payload :=
  {[ "city" := VStr city;
     "country" := VStr country;
     "temperature" := VStr temperature;
     "wind_speed" := VStr wind_speed;
     "wind_direction" := VStr wind_direction;
     "conditions" := VStr conditions;
     "coordinates" := VStr coordinates ]}.

(** The request of the second step of a chat turn with a tool. *)
Definition final_request (history : list entry) : request :=
  Request "deepseek-chat" history None None (7 # 10).

(** A run of tool calls through the dispatcher, one after the other; each
    payload is dropped and the world is handed on. *)
Definition run_tools (env : environment)
    (tool_calls : list (string * gmap string string)) (w : world) : world :=
  foldl (fun w' tc => snd (process_tool_call env (fst tc) (snd tc) w')) w tool_calls.

(** ** A sample outside world *)

Module Sample.

Definition quote : string := String (ascii_of_nat 34) EmptyString.

Definition quoted (s : string) : string := quote +:+ s +:+ quote.

Fixpoint join (sep : string) (l : list string) : string :=
  match l with
  | [] => ""
  | [s] => s
  | s :: t => s +:+ sep +:+ join sep t
  end.

(** The argument text [{"city": "Tokyo"}]. *)
Definition tokyo_arguments : string :=
  "{" +:+ quoted "city" +:+ ": " +:+ quoted "Tokyo" +:+ "}".

Definition dumps_conversation (c : conversation) : string :=
  "{" +:+ quoted "topic" +:+ ": " +:+ quoted (conv_topic c) +:+ ", "
      +:+ quoted "summary" +:+ ": " +:+ quoted (conv_summary c) +:+ ", "
      +:+ quoted "timestamp" +:+ ": " +:+ quoted (conv_timestamp c) +:+ "}".

Definition dumps_value (v : value) : string :=
  match v with
  | VStr s => quoted s
  | VList l => "[" +:+ join ", " (quoted <$> l) +:+ "]"
  | VConversations l => "[" +:+ join ", " (dumps_conversation <$> l) +:+ "]"
  end.

Definition dumps (p : payload) : string :=
  "{" +:+ join ", " ((fun kv => quoted (fst kv) +:+ ": " +:+ dumps_value (snd kv))
                       <$> map_to_list p) +:+ "}".

Definition repr_option (o : option string) : string :=
  match o with
  | Some s => "'" +:+ s +:+ "'"
  | None => "None"
  end.

(** The rendering of a message object, field by field. *)
Definition str_message (m : message) : string :=
  match m with
  | MessageObject content fc =>
      "ChatCompletionMessage(content=" +:+ repr_option content
        +:+ ", role='assistant', function_call="
        +:+ match fc with
            | Some c => "FunctionCall(arguments=" +:+ repr_option (Some (fc_arguments c))
                          +:+ ", name=" +:+ repr_option (Some (fc_name c)) +:+ ")"
            | None => "None"
            end
        +:+ ")"
  | MessageDict _ => "{}"
  end.

(** A number with one decimal place. *)
Definition str_number (q : Q) : string :=
  let tenths := (Qnum q * 10) / Z.pos (Qden q) in
  pretty (tenths / 10) +:+ "." +:+ pretty (tenths mod 10).

(** A model that asks for the weather when the user names Tokyo, answers a
    tool result with a sentence, and greets otherwise. *)
Definition model (log : list call) (req : request) : outcome message :=
  match last (req_messages req) with
  | Some (UserMessage "What is the weather in Tokyo?") =>
      Returns (MessageObject None (Some (FunctionCall "get_weather" tokyo_arguments)))
  | Some (FunctionResult _ _) =>
      Returns (MessageObject (Some "It is partly cloudy in Tokyo.") None)
  | _ => Returns (MessageObject (Some "Hello") None)
  end.

(** A geocoder that knows Tokyo only. *)
Definition geocoder (log : list call) (name : string) (count : Z) : outcome geo_data :=
  if bool_decide (name = "Tokyo")
  then Returns (GeoData (Some [ Location (Some "Tokyo") (Some "Japan")
                                         (Some (357 # 10)) (Some (1397 # 10)) ]))
  else Returns (GeoData None).

Definition forecast (log : list call) (latitude longitude : Q) : outcome weather_data :=
  Returns (WeatherData (Some (CurrentWeather (Some (215 # 10)) (Some (72 # 10))
                                             (Some (180 # 1)) (Some 2)))).

Definition loads (arguments : string) : outcome (gmap string string) :=
  if bool_decide (arguments = tokyo_arguments)
  then Returns {[ "city" := "Tokyo" ]}
  else Raises "Expecting value: line 1 column 1 (char 0)".

Definition env : environment :=
  Environment model geocoder forecast (fun _ => "2024-01-01T12:00:00")
              loads dumps str_message str_number.

Definition conv (topic : string) : conversation :=
  Conversation topic "summary" "2024-01-01T12:00:00".

(** A document with two categories and six conversations. *)
Definition doc : document :=
  Document
    (Some {[ "travel" := ["museums"; "local food"]; "food" := ["ramen"] ]})
    (Some [ conv "Trip to Tokyo"; conv "Weather"; conv "Dinner";
            conv "TRIP planning"; conv "Books"; conv "Music" ]).

Definition world0 : world := World [] doc [].

(** The world after a greeting and a question about Tokyo. *)
Definition world2 : world :=
  snd (chat env "What is the weather in Tokyo?" (snd (chat env "Hi" world0))).

End Sample.

(** ** Outside worlds that fail *)

Module Scenario.

(** The argument text [{"category": "travel", "preference": "museums"}]. *)
Definition travel_arguments : string :=
  "{" +:+ Sample.quoted "category" +:+ ": " +:+ Sample.quoted "travel" +:+ ", "
      +:+ Sample.quoted "preference" +:+ ": " +:+ Sample.quoted "museums" +:+ "}".

(** The argument text [{"tool_name": "get_weather"}]. *)
Definition reserved_arguments : string :=
  "{" +:+ Sample.quoted "tool_name" +:+ ": " +:+ Sample.quoted "get_weather" +:+ "}".

Definition loads (arguments : string) : outcome (gmap string string) :=
  if bool_decide (arguments = Sample.tokyo_arguments) then Returns {[ "city" := "Tokyo" ]}
  else if bool_decide (arguments = travel_arguments)
  then Returns {[ "category" := "travel"; "preference" := "museums" ]}
  else if bool_decide (arguments = reserved_arguments)
  then Returns {[ "tool_name" := "get_weather" ]}
  else Raises "Expecting value: line 1 column 1 (char 0)".

(** A model that answers every first request with the given function call
    and every request without functions as [final] says. *)
Definition calling_model (name arguments : string) (final : outcome message)
    (log : list call) (req : request) : outcome message :=
  match req_functions req with
  | Some _ => Returns (MessageObject None (Some (FunctionCall name arguments)))
  | None => final
  end.

(** The sample world with another model, geocoder and forecast provider. *)
Definition with_services
    (model : list call -> request -> outcome message)
    (geocoder : list call -> string -> Z -> outcome geo_data)
    (forecast : list call -> Q -> Q -> outcome weather_data) : environment :=
  Environment model geocoder forecast (fun _ => "2024-01-01T12:00:00")
              loads Sample.dumps Sample.str_message Sample.str_number.

Definition with_model (model : list call -> request -> outcome message) : environment :=
  with_services model Sample.geocoder Sample.forecast.

(** No network: every request raises. *)
Definition offline : environment :=
  with_services (fun _ _ => Raises "Connection error.")
                (fun _ _ _ => Raises "Connection refused")
                (fun _ _ _ => Raises "Connection refused").

(** The forecast provider is down. *)
Definition forecast_down : environment :=
  with_services Sample.model Sample.geocoder (fun _ _ _ => Raises "Read timed out").

(** The forecast provider answers without a block of current conditions. *)
Definition forecast_empty : environment :=
  with_services Sample.model Sample.geocoder (fun _ _ _ => Returns (WeatherData None)).


(** The model asks for the weather with a text that is not JSON. *)
Definition asks_badly : environment :=
  with_model (calling_model "get_weather" "{city: Tokyo"
                (Returns (MessageObject (Some "Done.") None))).


(** The model asks to store a preference; its second answer is [final]. *)
Definition asks_store (final : outcome message) : environment :=
  with_model (calling_model "store_preference" travel_arguments final).

(** The model asks for a tool that does not exist. *)
Definition asks_unknown : environment :=
  with_model (calling_model "send_email" Sample.tokyo_arguments
                (Returns (MessageObject (Some "I cannot send email.") None))).

(** A turn that stores a preference and is then answered, or cut off. *)
Definition store_turn : environment :=
  asks_store (Returns (MessageObject (Some "Noted.") None)).

Definition store_turn_cut : environment :=
  asks_store (Raises "Connection error.").

(** A new orchestrator over an empty document. *)
Definition fresh : world := World [] empty_document [].

End Scenario.

(** * Properties *)

(** ** Strings *)

Lemma startswith_app (p s : string) :
  PyStr.startswith p s = true ↔ ∃ post, s = p +:+ post.
Proof.
  revert s. induction p as [|a p IH]; intros s; simpl.
  - split; [intros _; by exists s | done].
  - destruct s as [|b s].
    + split; [done | intros [post Hs]; discriminate Hs].
    + destruct (ascii_dec a b) as [->|Hab].
      * rewrite IH. split; intros [post Hs]; exists post.
        -- by rewrite Hs.
        -- by injection Hs.
      * split; [done | intros [post Hs]; injection Hs as Hb _; congruence].
Qed.

Lemma contains_app (needle hay : string) :
  PyStr.contains needle hay = true ↔ ∃ pre post, hay = pre +:+ needle +:+ post.
Proof.
  induction hay as [|b hay IH]; simpl.
  - rewrite orb_false_r, startswith_app. split.
    + intros [post Hs]. by exists "", post.
    + intros (pre & post & Hs). destruct pre; [by exists post | discriminate Hs].
  - rewrite orb_true_iff, startswith_app, IH. split.
    + intros [[post Hs] | (pre & post & Hs)].
      * by exists "", post.
      * exists (String b pre), post. simpl. by rewrite Hs.
    + intros (pre & post & Hs). destruct pre as [|c pre]; simpl in Hs.
      * left. by exists post.
      * right. injection Hs as _ Hs. by exists pre, post.
Qed.





Lemma truthy_nonempty (s : string) : PyStr.truthy s = true ↔ s ≠ "".
Proof. by destruct s. Qed.


(** ** The preference and conversation store *)

Ltac run_store :=
  unfold store_preference, store_conversation, get_preferences, get_conversations,
    _save_memory, set_memory, log_call, get_world, mbind, M_bind, mret, M_ret;
  simpl.

Lemma store_preference_returns (category preference : string) (w : world) :
  fst (store_preference category preference w) = Returns (stored_preference category preference).
Proof. by run_store. Qed.

(** What one call does to the document: the category's list gains the
    preference at its end unless it holds it already. *)
Lemma store_preference_memory (category preference : string) (w : world) :
  let items := preferences_of (memory w) category in
  memory (snd (store_preference category preference w)) =
    Document
      (Some (<[category := if bool_decide (preference ∈ items) then items
                           else items ++ [preference]]>
               (default ∅ (doc_preferences (memory w)))))
      (doc_conversations (memory w)).
Proof.
  run_store. unfold preferences_of. f_equal. f_equal.
  destruct (doc_preferences (memory w)) as [prefs|]; simpl.
  - destruct (prefs !! category) as [items|] eqn:Hc; simpl.
    + rewrite Hc. simpl. case_bool_decide; [by rewrite insert_id | done].
    + rewrite lookup_insert_eq. simpl. by rewrite insert_insert_eq.
  - rewrite lookup_empty, lookup_insert_eq. simpl. by rewrite insert_insert_eq.
Qed.

Lemma store_preference_items (category preference : string) (w : world) :
  let items := preferences_of (memory w) category in
  preferences_of (memory (snd (store_preference category preference w))) category =
    if bool_decide (preference ∈ items) then items else items ++ [preference].
Proof.
  intros items. rewrite store_preference_memory. unfold preferences_of. simpl.
  by rewrite lookup_insert_eq.
Qed.

Lemma store_preference_other (category preference other : string) (w : world) :
  other ≠ category →
  preferences_of (memory (snd (store_preference category preference w))) other =
    preferences_of (memory w) other.
Proof.
  intros Hne. rewrite store_preference_memory. unfold preferences_of. simpl.
  by rewrite lookup_insert_ne.
Qed.

Lemma store_preference_elem (category preference : string) (w : world) :
  preference ∈ preferences_of (memory (snd (store_preference category preference w))) category.
Proof.
  rewrite store_preference_items. case_bool_decide; [done |].
  apply elem_of_app. right. apply list_elem_of_singleton. done.
Qed.

Lemma store_preference_NoDup (category preference : string) (w : world) :
  NoDup (preferences_of (memory w) category) →
  NoDup (preferences_of (memory (snd (store_preference category preference w))) category).
Proof.
  intros Hnd. rewrite store_preference_items. case_bool_decide as Hin; [done |].
  apply NoDup_app. split_and!; [done | | apply NoDup_singleton].
  intros x Hx Hx'. apply list_elem_of_singleton in Hx'. by subst.
Qed.

Lemma occurs_once_NoDup {A} (x : A) (l : list A) :
  x ∈ l → NoDup l → occurs_once x l.
Proof.
  intros Hin Hnd. apply list_elem_of_split in Hin as (l1 & l2 & ->).
  exists l1, l2. apply NoDup_app in Hnd as (_ & Hdisj & Hnd).
  apply NoDup_cons in Hnd as [Hx _]. split_and!; [done | | done].
  intros Hx1. apply (Hdisj x Hx1). by left.
Qed.

(** The invariant holds of the empty document and is kept by both store
    operations. *)
Lemma distinct_preferences_empty : distinct_preferences empty_document.
Proof. intros prefs category items Hp. discriminate Hp. Qed.

Lemma distinct_preferences_of (d : document) (category : string) :
  distinct_preferences d → NoDup (preferences_of d category).
Proof.
  unfold distinct_preferences, preferences_of. intros Hd.
  destruct (doc_preferences d) as [prefs|]; simpl.
  - destruct (prefs !! category) as [items|] eqn:Hc; simpl; [by eapply Hd | apply NoDup_nil_2].
  - rewrite lookup_empty. apply NoDup_nil_2.
Qed.

Lemma store_preference_distinct (category preference : string) (w : world) :
  distinct_preferences (memory w) →
  distinct_preferences (memory (snd (store_preference category preference w))).
Proof.
  intros Hd prefs other items Hp Ho.
  destruct (decide (other = category)) as [->|Hne].
  - pose proof (store_preference_NoDup category preference w
                  (distinct_preferences_of _ _ Hd)) as Hnd.
    unfold preferences_of in Hnd. rewrite Hp in Hnd. simpl in Hnd. by rewrite Ho in Hnd.
  - pose proof (store_preference_other category preference other w Hne) as Heq.
    pose proof (distinct_preferences_of _ other Hd) as Hnd.
    rewrite <- Heq in Hnd. unfold preferences_of in Hnd.
    rewrite Hp in Hnd. simpl in Hnd. by rewrite Ho in Hnd.
Qed.

Lemma store_conversation_distinct (env : environment) (topic summary : string) (w : world) :
  distinct_preferences (memory w) →
  distinct_preferences (memory (snd (store_conversation env topic summary w))).
Proof. run_store. intros Hd prefs category items Hp. simpl in Hp. by eapply Hd. Qed.

(** C3. [store_preference] is idempotent.  In a store that lists no
    preference twice under the category, two calls with the same arguments
    both return [{status: "stored", category, preference}], the second call
    leaves the document as the first one made it, and the category's list
    then holds the preference exactly once: a preference that is already
    there, compared by exact equality of strings, is not added again. *)
Theorem store_preference_idempotent (category preference : string) (w : world) :
  NoDup (preferences_of (memory w) category) →
  let first := store_preference category preference w in
  let second := store_preference category preference (snd first) in
  fst first = Returns (stored_preference category preference) ∧
  fst second = Returns (stored_preference category preference) ∧
  memory (snd second) = memory (snd first) ∧
  occurs_once preference (preferences_of (memory (snd second)) category).
Proof.
  intros Hnd first second. subst first second.
  set (w1 := snd (store_preference category preference w)).
  assert (Hin : preference ∈ preferences_of (memory w1) category)
    by apply store_preference_elem.
  assert (Hsame : memory (snd (store_preference category preference w1)) = memory w1).
  { rewrite store_preference_memory. cbv zeta.
    rewrite bool_decide_eq_true_2 by done.
    pose proof (store_preference_memory category preference w) as Hm.
    cbv zeta in Hm. fold w1 in Hm.
    unfold preferences_of. rewrite Hm. simpl.
    rewrite lookup_insert_eq. simpl. by rewrite insert_insert_eq. }
  split_and!; [apply store_preference_returns | apply store_preference_returns | done |].
  rewrite Hsame. apply occurs_once_NoDup; [done |].
  by apply store_preference_NoDup.
Qed.

Lemma store_preference_idempotent_witness :
  NoDup (preferences_of (memory Sample.world0) "travel") ∧
  occurs_once "museums"
    (preferences_of
       (memory (snd (store_preference "travel" "museums"
                       (snd (store_preference "travel" "museums" Sample.world0)))))
       "travel").
Proof.
  assert (Hnd : NoDup (preferences_of (memory Sample.world0) "travel"))
    by (apply (bool_decide_unpack _); vm_compute; exact I).
  split; [exact Hnd |].
  exact (proj2 (proj2 (proj2
           (store_preference_idempotent "travel" "museums" Sample.world0 Hnd)))).
Defined.

(** From the empty document, storing a pair twice leaves a list of length 1;
    a preference that differs in case only is a different preference. *)
Example store_preference_twice_from_empty :
  let w := World [] empty_document [] in
  let w2 := snd (store_preference "travel" "museums"
                   (snd (store_preference "travel" "museums" w))) in
  let w3 := snd (store_preference "travel" "Museums" w2) in
  preferences_of (memory w2) "travel" = ["museums"] ∧
  preferences_of (memory w3) "travel" = ["museums"; "Museums"].
Proof. by vm_compute. Qed.

(** [get_preferences] reads and changes nothing; with a non-empty category
    it returns that category's list under the category's name, with no
    category it returns the whole mapping. *)
Lemma get_preferences_some (category : string) (w : world) :
  category ≠ "" →
  get_preferences (Some category) w =
    (Returns {[ category := VList (preferences_of (memory w) category) ]}, w).
Proof.
  intros Hne. apply truthy_nonempty in Hne. run_store. by rewrite Hne.
Qed.

Lemma get_preferences_none (w : world) :
  get_preferences None w =
    (Returns (VList <$> default ∅ (doc_preferences (memory w))), w).
Proof. done. Qed.

Lemma get_preferences_empty_string (w : world) :
  get_preferences (Some "") w = get_preferences None w.
Proof. done. Qed.

(** What [get_preferences()] returns is the mapping the store operations
    have built: after a [store_preference] it is the earlier mapping with
    the category's list updated. *)
Lemma get_preferences_after_store (category preference : string) (w : world) :
  let items := preferences_of (memory w) category in
  fst (get_preferences None (snd (store_preference category preference w))) =
    Returns (VList <$>
               <[category := if bool_decide (preference ∈ items) then items
                             else items ++ [preference]]>
                 (default ∅ (doc_preferences (memory w)))).
Proof.
  intros items. rewrite get_preferences_none. cbn [fst].
  by rewrite store_preference_memory.
Qed.

(** C5, as the code has it.  With a category that is not the empty string,
    [get_preferences] returns [{category: items}] where [items] is exactly
    the list stored under the category, and the empty list, not an error,
    when the store has no such category; with no category it returns
    exactly the stored mapping of categories to lists.  The store is left
    as it was. *)
Theorem get_preferences_correct (w : world) (category : string) :
  category ≠ "" →
  let prefs : gmap string (list string) := default ∅ (doc_preferences (memory w)) in
  get_preferences (Some category) w =
    (Returns {[ category := VList (default [] (prefs !! category)) ]}, w) ∧
  (prefs !! category = None →
   get_preferences (Some category) w = (Returns {[ category := VList [] ]}, w)) ∧
  get_preferences None w = (Returns (VList <$> prefs), w) ∧
  (∀ other, (VList <$> prefs) !! other = VList <$> (prefs !! other)).
Proof.
  intros Hne prefs. split_and!.
  - by apply get_preferences_some.
  - intros Hnone. rewrite get_preferences_some by done.
    unfold preferences_of. fold prefs. by rewrite Hnone.
  - apply get_preferences_none.
  - intros other. apply lookup_fmap.
Qed.

Lemma get_preferences_correct_witness :
  "travel" ≠ "" ∧
  get_preferences (Some "travel") Sample.world0 =
    (Returns {[ "travel" := VList ["museums"; "local food"] ]}, Sample.world0).
Proof.
  assert (Hne : "travel" ≠ "") by discriminate.
  split; [exact Hne |].
  exact (proj1 (get_preferences_correct Sample.world0 "travel" Hne)).
Defined.

(** C5 as the specification words it fails when the category given is the
    empty string: over the sample document the answer is the whole mapping,
    not [{"": []}]. *)
Lemma get_preferences_given_empty_string :
  fst (get_preferences (Some "") Sample.world0) =
    Returns {[ "travel" := VList ["museums"; "local food"]; "food" := VList ["ramen"] ]} ∧
  fst (get_preferences (Some "") Sample.world0) ≠
    Returns {[ "" := VList (preferences_of (memory Sample.world0) "") ]}.
Proof.
  split; [by vm_compute |].
  intros H.
  apply (f_equal (fun r => match r with
                           | Returns p => p !! "travel"
                           | Raises _ => None
                           end)) in H.
  vm_compute in H. discriminate H.
Qed.

(** ** Conversations *)

Lemma get_conversations_some (topic : string) (w : world) :
  topic ≠ "" →
  get_conversations (Some topic) w =
    (Returns {[ "conversations" :=
                  VConversations
                    (List.filter
                       (fun c => PyStr.contains (PyStr.lower topic) (PyStr.lower (conv_topic c)))
                       (conversations_of (memory w))) ]}, w).
Proof.
  intros Hne. apply truthy_nonempty in Hne. run_store. by rewrite Hne.
Qed.

Lemma get_conversations_none (w : world) :
  get_conversations None w =
    (Returns {[ "conversations" :=
                  VConversations (PyStr.last_n 5 (conversations_of (memory w))) ]}, w).
Proof. done. Qed.

Lemma get_conversations_empty_string (w : world) :
  get_conversations (Some "") w = get_conversations None w.
Proof. done. Qed.




(** Over the sample document the topic ["trip"] selects both entries that
    name a trip, whatever their case. *)
Example get_conversations_trip :
  fst (get_conversations (Some "trip") Sample.world0) =
    Returns {[ "conversations" :=
      VConversations [ Sample.conv "Trip to Tokyo"; Sample.conv "TRIP planning" ] ]}.
Proof. by vm_compute. Qed.



(** Over the sample document the two readings of the empty string differ:
    the answers are not [{"": []}] and not all six entries. *)
Example empty_string_sample :
  fst (get_preferences (Some "") Sample.world0) ≠ Returns {[ "" := VList [] ]} ∧
  fst (get_conversations (Some "") Sample.world0) =
    Returns {[ "conversations" :=
      VConversations [ Sample.conv "Weather"; Sample.conv "Dinner"; Sample.conv "TRIP planning";
                       Sample.conv "Books"; Sample.conv "Music" ] ]}.
Proof.
  split; [| by vm_compute].
  intros H.
  apply (f_equal (fun r => match r with
                           | Returns p => p !! "travel"
                           | Raises _ => None
                           end)) in H.
  vm_compute in H. discriminate H.
Qed.

(** ** The weather description table *)

Lemma weather_description_unlisted (code : Z) :
  code ∉ (WeatherMCP.weather_codes).*1 →
  WeatherMCP._get_weather_description code = "Unknown conditions".
Proof.
  intros Hnot. unfold WeatherMCP._get_weather_description.
  by rewrite (not_elem_of_list_to_map_1 _ _ Hnot).
Qed.

Lemma weather_description_listed (code : Z) (description : string) :
  (code, description) ∈ WeatherMCP.weather_codes →
  WeatherMCP._get_weather_description code = description.
Proof.
  intros Hin. unfold WeatherMCP._get_weather_description.
  assert (Hnd : NoDup (WeatherMCP.weather_codes).*1)
    by (apply (bool_decide_unpack _); by vm_compute).
  by rewrite (elem_of_list_to_map_1 _ _ _ Hnd Hin).
Qed.

(** C9. The description of a weather code is read off the fixed table:
    code 95 is "Thunderstorm", code 2 is "Partly cloudy", every listed code
    has the description listed with it, and every code the table does not
    list, 999 among them, is "Unknown conditions". *)
Theorem weather_description_table :
  WeatherMCP._get_weather_description 95 = "Thunderstorm" ∧
  WeatherMCP._get_weather_description 2 = "Partly cloudy" ∧
  WeatherMCP._get_weather_description 999 = "Unknown conditions" ∧
  (∀ code description,
     (code, description) ∈ WeatherMCP.weather_codes →
     WeatherMCP._get_weather_description code = description) ∧
  (∀ code,
     code ∉ [0; 1; 2; 3; 45; 48; 51; 53; 55; 61; 63; 65; 80; 81; 82; 95; 96; 99] →
     WeatherMCP._get_weather_description code = "Unknown conditions").
Proof.
  split_and!; [by vm_compute | by vm_compute | by vm_compute | |].
  - apply weather_description_listed.
  - intros code Hnot. by apply weather_description_unlisted.
Qed.

Lemma weather_description_table_witness :
  ((-1) ∉ [0; 1; 2; 3; 45; 48; 51; 53; 55; 61; 63; 65; 80; 81; 82; 95; 96; 99]) ∧
  WeatherMCP._get_weather_description (-1) = "Unknown conditions".
Proof.
  assert (Hnot : (-1) ∉ [0; 1; 2; 3; 45; 48; 51; 53; 55; 61; 63; 65; 80; 81; 82; 95; 96; 99])
    by (apply (bool_decide_unpack _); by vm_compute).
  split; [exact Hnot |].
  exact (proj2 (proj2 (proj2 (proj2 weather_description_table))) (-1) Hnot).
Defined.

(** ** The dispatcher *)

Lemma get_available_tools_names :
  dom get_available_tools = list_to_set dispatched_names.
Proof.
  apply set_eq. intros name. unfold get_available_tools, dispatched_names.
  rewrite !dom_insert, dom_singleton. set_solver.
Qed.



(** ** The weather lookup *)

(** C7. When the geocoder answers the request for a city with no results
    (the key is missing, or the list is empty), [get_weather] returns
    [{error: "City '<city>' not found"}] and the only outbound call it makes
    is the geocoding request: the forecast provider is not called. *)
Theorem get_weather_city_not_found (env : environment) (city country : string)
    (geo : geo_data) (w : world) :
  geocoding_get env (calls w) city 1 = Returns geo →
  geo_results geo = None ∨ geo_results geo = Some [] →
  let result := get_weather env city country w in
  fst result = Returns (error_payload ("City '" +:+ city +:+ "' not found")) ∧
  calls (snd result) = calls w ++ [GeocodingGet city 1] ∧
  forecast_calls (calls (snd result)) = forecast_calls (calls w) ∧
  conversation_history (snd result) = conversation_history w ∧
  memory (snd result) = memory w.
Proof.
  intros Hgeo Hnone result. subst result.
  unfold get_weather, try_except, requests_get_geocoding, log_call, get_world,
    from_outcome, mbind, M_bind, mret, M_ret.
  simpl. rewrite Hgeo. simpl.
  assert (Hcount : forecast_calls (calls w ++ [GeocodingGet city 1]) = forecast_calls (calls w)).
  { unfold forecast_calls. rewrite List.filter_app, length_app. simpl. lia. }
  destruct Hnone as [-> | ->]; simpl; by split_and!.
Qed.

Lemma get_weather_city_not_found_witness :
  geocoding_get Sample.env (calls Sample.world0) "Atlantis" 1 = Returns (GeoData None) ∧
  fst (get_weather Sample.env "Atlantis" "" Sample.world0) =
    Returns (error_payload "City 'Atlantis' not found") ∧
  forecast_calls (calls (snd (get_weather Sample.env "Atlantis" "" Sample.world0))) = 0%nat.
Proof.
  assert (Hgeo : geocoding_get Sample.env (calls Sample.world0) "Atlantis" 1
                 = Returns (GeoData None)) by reflexivity.
  pose proof (get_weather_city_not_found Sample.env "Atlantis" "" (GeoData None)
                Sample.world0 Hgeo (or_introl eq_refl)) as H.
  split; [exact Hgeo |].
  split; [exact (proj1 H) | exact (proj1 (proj2 (proj2 H)))].
Defined.

(** When the geocoder knows the city, the forecast provider is called once. *)
Example get_weather_tokyo :
  let result := get_weather Sample.env "Tokyo" "" Sample.world0 in
  (∃ p, fst result = Returns p ∧ p !! "city" = Some (VStr "Tokyo")
        ∧ p !! "conditions" = Some (VStr "Partly cloudy")) ∧
  forecast_calls (calls (snd result)) = 1%nat.
Proof. split; [eexists; split; [by vm_compute | by vm_compute] | by vm_compute]. Qed.

(** ** The chat turn *)

Lemma only_logs_ret {A} (a : A) : only_logs (mret a).
Proof. intros w. split; [done | exists []; by rewrite app_nil_r]. Qed.

Lemma only_logs_raise {A} (e : string) : only_logs (raise e : M A).
Proof. intros w. split; [done | exists []; by rewrite app_nil_r]. Qed.

Lemma only_logs_bind {A B} (m : M A) (k : A → M B) :
  only_logs m → (∀ a, only_logs (k a)) → only_logs (m ≫= k).
Proof.
  intros Hm Hk w. unfold mbind, M_bind.
  destruct (Hm w) as [Hh [l1 Hl1]]. destruct (m w) as [[a|e] w1]; simpl in *.
  - destruct (Hk a w1) as [Hh' [l2 Hl2]]. split; [congruence |].
    exists (l1 ++ l2). by rewrite Hl2, Hl1, app_assoc.
  - split; [done | by exists l1].
Qed.

Lemma only_logs_try {A} (m : M A) (h : string → M A) :
  only_logs m → (∀ e, only_logs (h e)) → only_logs (try_except m h).
Proof.
  intros Hm Hh w. unfold try_except.
  destruct (Hm w) as [Hw [l1 Hl1]]. destruct (m w) as [[a|e] w1]; simpl in *.
  - split; [done | by exists l1].
  - destruct (Hh e w1) as [Hw' [l2 Hl2]]. split; [congruence |].
    exists (l1 ++ l2). by rewrite Hl2, Hl1, app_assoc.
Qed.

Lemma only_logs_get_world : only_logs get_world.
Proof. intros w. split; [done | exists []; by rewrite app_nil_r]. Qed.

Lemma only_logs_log_call (c : call) : only_logs (log_call c).
Proof. intros w. split; [done | by exists [c]]. Qed.

Lemma only_logs_set_memory (d : document) : only_logs (set_memory d).
Proof. intros w. split; [done | exists []; by rewrite app_nil_r]. Qed.

Lemma only_logs_getitem {A} (key : string) (o : option A) : only_logs (getitem key o).
Proof. destruct o; [apply only_logs_ret | apply only_logs_raise]. Qed.

Lemma only_logs_from_outcome {A} (o : outcome A) : only_logs (from_outcome o).
Proof. destruct o; [apply only_logs_ret | apply only_logs_raise]. Qed.

Create HintDb logs.
#[local] Hint Resolve only_logs_ret only_logs_raise only_logs_get_world only_logs_log_call
  only_logs_set_memory only_logs_getitem only_logs_from_outcome : logs.

Ltac only_logs_step :=
  first [ apply only_logs_bind; [| intros ?]
        | apply only_logs_try; [| intros ?]
        | solve [auto with logs] ].

Lemma only_logs_get_weather (env : environment) (city country : string) :
  only_logs (get_weather env city country).
Proof.
  unfold get_weather, requests_get_geocoding, requests_get_forecast.
  apply only_logs_try; [| intros e; auto with logs].
  apply only_logs_bind; [repeat only_logs_step | intros geo].
  destruct (geo_results geo) as [[|location results]|]; [auto with logs | | auto with logs].
  do 2 (apply only_logs_bind; [auto with logs | intros ?]).
  apply only_logs_bind; [repeat only_logs_step | intros weather].
  destruct (wd_current_weather weather); [| auto with logs].
  repeat only_logs_step.
Qed.

Lemma only_logs_store_preference (category preference : string) :
  only_logs (store_preference category preference).
Proof. unfold store_preference, _save_memory. repeat only_logs_step. Qed.

Lemma only_logs_get_preferences (category : option string) :
  only_logs (get_preferences category).
Proof.
  unfold get_preferences. apply only_logs_bind; [auto with logs | intros w].
  destruct category as [c|]; [destruct (PyStr.truthy c) |]; auto with logs.
Qed.

Lemma only_logs_store_conversation (env : environment) (topic summary : string) :
  only_logs (store_conversation env topic summary).
Proof. unfold store_conversation, _save_memory. repeat only_logs_step. Qed.

Lemma only_logs_get_conversations (topic : option string) :
  only_logs (get_conversations topic).
Proof.
  unfold get_conversations. apply only_logs_bind; [auto with logs | intros w].
  destruct topic as [t|]; [destruct (PyStr.truthy t) |]; auto with logs.
Qed.

#[local] Hint Resolve only_logs_get_weather only_logs_store_preference
  only_logs_get_preferences only_logs_store_conversation only_logs_get_conversations : logs.

Lemma only_logs_process_tool_call (env : environment) (tool_name : string)
    (kwargs : gmap string string) :
  only_logs (process_tool_call env tool_name kwargs).
Proof. unfold process_tool_call. repeat case_bool_decide; auto with logs. Qed.

Lemma only_logs_call_process_tool_call (env : environment) (function_name : string)
    (function_args : gmap string string) :
  only_logs (call_process_tool_call env function_name function_args).
Proof.
  unfold call_process_tool_call.
  repeat case_bool_decide; auto using only_logs_process_tool_call with logs.
Qed.

Lemma only_logs_completions_create (env : environment) (req : request) :
  only_logs (completions_create env req).
Proof. unfold completions_create. repeat only_logs_step. Qed.

Ltac run_chat :=
  unfold completions_create, message_content, message_function_call, from_outcome,
    history_append, log_call, get_world, try_except, raise, mbind, M_bind, mret, M_ret;
  simpl.

(** What [_handle_function_call] does to the transcript and to the log. *)
Lemma handle_function_call_effect (env : environment) (reply : message) (w : world) :
  ∃ block later,
    (block = [] ∨
     ∃ name arguments result rest,
       block = AssistantCall name arguments :: FunctionResult name result :: rest ∧
       (rest = [] ∨ ∃ content, rest = [AssistantText content])) ∧
    conversation_history (snd (_handle_function_call env reply w)) =
      conversation_history w ++ block ∧
    calls (snd (_handle_function_call env reply w)) = calls w ++ later.
Proof.
  unfold _handle_function_call.
  destruct reply as [content [fc|] | items];
    [| exists [], []; run_chat; rewrite !app_nil_r; by split_and!; [left | |]
     | exists [], []; run_chat; rewrite !app_nil_r; by split_and!; [left | |] ].
  run_chat.
  destruct (json_loads env (fc_arguments fc)) as [args|e]; simpl;
    [| exists [], []; rewrite !app_nil_r; by split_and!; [left | |] ].
  destruct (only_logs_call_process_tool_call env (fc_name fc) args w) as [Hh [l1 Hl1]].
  destruct (call_process_tool_call env (fc_name fc) args w) as [[p|e] w1]; simpl in *;
    [| exists [], l1; rewrite app_nil_r; by split_and!; [left | |] ].
  rewrite Hh, Hl1.
  match goal with
  | |- context [chat_completions_create env ?log ?req] =>
      destruct (chat_completions_create env log req) as [[final_content ?|?]|e]; simpl
  end.
  - eexists [_; _; _], (l1 ++ [_]). split_and!.
    + right. do 4 eexists. split; [done |]. right. by eexists.
    + by rewrite <- !app_assoc.
    + by rewrite <- app_assoc.
  - eexists [_; _], (l1 ++ [_]). split_and!.
    + right. do 4 eexists. split; [done |]. by left.
    + by rewrite <- !app_assoc.
    + by rewrite <- app_assoc.
  - eexists [_; _], (l1 ++ [_]). split_and!.
    + right. do 4 eexists. split; [done |]. by left.
    + by rewrite <- !app_assoc.
    + by rewrite <- app_assoc.
Qed.

(** What one call of [chat] does to the transcript and to the log: the
    user's entry, then one block; the first outbound call is the request
    that advertises [functions]. *)
Lemma chat_effect (env : environment) (message : string) (w : world) :
  ∃ block later,
    turn_block block ∧
    conversation_history (snd (chat env message w)) =
      conversation_history w ++ UserMessage message :: block ∧
    calls (snd (chat env message w)) =
      calls w ++
      ChatCompletion (first_request (conversation_history w ++ [UserMessage message])) :: later.
Proof.
  unfold chat. run_chat. unfold first_request.
  match goal with
  | |- context [chat_completions_create env ?log ?req] =>
      destruct (chat_completions_create env log req) as [reply|e]; simpl
  end; [| exists [], []; split_and!; [constructor | done | done] ].
  destruct (wants_function_call reply) eqn:Hwants.
  - match goal with
    | |- context [_handle_function_call env reply ?w1] =>
        destruct (handle_function_call_effect env reply w1)
          as (block & later & Hblock & Hh & Hl);
        destruct (_handle_function_call env reply w1) as [[r|e] w2]
    end; simpl in *; rewrite Hh, Hl, <- !app_assoc; simpl;
      exists block, later;
      (split_and!; [| done | done]);
      destruct Hblock as [-> | (n & a & r' & rest & -> & [-> | [c ->]])]; constructor.
  - destruct reply as [content [fc|] | items]; simpl in *; [done | |].
    + eexists [_], []. split_and!; [constructor | by rewrite <- app_assoc | done].
    + exists [], []. split_and!; [constructor | done | done].
Qed.

Lemma paired_app (h block : list entry) :
  paired h → paired block → paired (h ++ block).
Proof. induction 1; intros Hb; simpl; [done | | |]; constructor; auto. Qed.

Lemma paired_turn (message : string) (block : list entry) :
  turn_block block → paired (UserMessage message :: block).
Proof. intros []; repeat constructor. Qed.

Lemma reachable_paired (env : environment) (w : world) :
  reachable env w → paired (conversation_history w).
Proof.
  induction 1 as [mem log | w message Hreach IH]; simpl; [constructor |].
  destruct (chat_effect env message w) as (block & later & Hblock & -> & _).
  by apply paired_app, paired_turn.
Qed.

Lemma paired_head (h : list entry) (name content : string) :
  paired h → h !! 0%nat ≠ Some (FunctionResult name content).
Proof. by intros []. Qed.

Lemma paired_lookup (h : list entry) (i : nat) (name arguments : string) :
  paired h →
  h !! i = Some (AssistantCall name arguments) →
  (∃ content, h !! S i = Some (FunctionResult name content)) ∧
  (∀ other content, h !! S (S i) ≠ Some (FunctionResult other content)).
Proof.
  intros Hp. revert i.
  induction Hp as [| c h Hp IH | c h Hp IH | n a c h Hp IH]; intros i Hi.
  - done.
  - destruct i as [|i]; [done | by apply IH].
  - destruct i as [|i]; [done | by apply IH].
  - destruct i as [|[|i]]; simpl in Hi.
    + injection Hi as -> ->. split; [by exists c |].
      intros other content. by apply paired_head.
    + done.
    + by apply IH.
Qed.

(** C2. In every transcript a sequence of chat turns leads to, the entry
    right after a tool-call intent is a tool result that names the same
    tool, and the entry after that one, if any, is not a second tool
    result: each intent is followed at once by exactly one result of its
    tool, before any further assistant text. *)
Theorem tool_call_followed_by_its_result (env : environment) (w : world)
    (i : nat) (name arguments : string) :
  reachable env w →
  conversation_history w !! i = Some (AssistantCall name arguments) →
  (∃ content, conversation_history w !! S i = Some (FunctionResult name content)) ∧
  (∀ other content,
     conversation_history w !! S (S i) ≠ Some (FunctionResult other content)).
Proof. intros Hreach. by apply paired_lookup, (reachable_paired env). Qed.

Lemma tool_call_followed_by_its_result_witness :
  reachable Sample.env Sample.world2 ∧
  conversation_history Sample.world2 !! 3%nat =
    Some (AssistantCall "get_weather" Sample.tokyo_arguments) ∧
  ∃ content,
    conversation_history Sample.world2 !! 4%nat = Some (FunctionResult "get_weather" content).
Proof.
  assert (Hreach : reachable Sample.env Sample.world2)
    by (do 2 apply reachable_chat; apply reachable_init).
  assert (Hcall : conversation_history Sample.world2 !! 3%nat
                  = Some (AssistantCall "get_weather" Sample.tokyo_arguments))
    by (by vm_compute).
  split_and!; [exact Hreach | exact Hcall |].
  exact (proj1 (tool_call_followed_by_its_result Sample.env Sample.world2 3 "get_weather"
                  Sample.tokyo_arguments Hreach Hcall)).
Defined.

(** The transcript of the sample: a plain turn, then a turn with a tool. *)
Example sample_transcript_shape :
  ∃ greeting result answer,
    conversation_history Sample.world2 =
      [ UserMessage "Hi"; AssistantText greeting;
        UserMessage "What is the weather in Tokyo?";
        AssistantCall "get_weather" Sample.tokyo_arguments;
        FunctionResult "get_weather" result;
        AssistantText answer ].
Proof. do 3 eexists. by vm_compute. Qed.

(** C1, as the code has it.  The first outbound call of every chat turn is
    the request to the model that carries the transcript with the user's
    entry and the list [functions]; that list names get_weather,
    store_preference and get_preferences only.  store_conversation and
    get_conversations, which the dispatcher answers to and which
    [get_available_tools] lists, are not advertised. *)
Theorem chat_advertises_three_of_five (env : environment) (message : string) (w : world) :
  let req := first_request (conversation_history w ++ [UserMessage message]) in
  (∃ later, calls (snd (chat env message w)) = calls w ++ ChatCompletion req :: later) ∧
  req_functions req = Some functions ∧
  advertised_names req = ["get_weather"; "store_preference"; "get_preferences"] ∧
  dom get_available_tools = list_to_set dispatched_names ∧
  advertised_names req ≠ dispatched_names ∧
  ("store_conversation" ∈ dispatched_names) ∧
  ("store_conversation" ∉ advertised_names req) ∧
  ("get_conversations" ∈ dispatched_names) ∧
  ("get_conversations" ∉ advertised_names req).
Proof.
  intros req. split_and!.
  - destruct (chat_effect env message w) as (block & later & _ & _ & Hcalls). by exists later.
  - done.
  - done.
  - apply get_available_tools_names.
  - discriminate.
  - apply (bool_decide_unpack _). by vm_compute.
  - apply (bool_decide_unpack _). by vm_compute.
  - apply (bool_decide_unpack _). by vm_compute.
  - apply (bool_decide_unpack _). by vm_compute.
Qed.

(** The dispatcher does answer to the two names that are not advertised. *)
Example dispatcher_answers_get_conversations :
  fst (process_tool_call Sample.env "get_conversations" {[ "topic" := "trip" ]} Sample.world0) =
    Returns {[ "conversations" :=
      VConversations [ Sample.conv "Trip to Tokyo"; Sample.conv "TRIP planning" ] ]}.
Proof. by vm_compute. Qed.

(** C8, as the code has it.  When the model answers the first request with
    a message object that carries no function call, [chat] appends one
    assistant entry and returns its text, and that text is [str(message)],
    the rendering of the whole message object, not the [content] of the
    message. *)
Theorem chat_plain_reply (env : environment) (message : string) (w : world)
    (content : option string) :
  let req := first_request (conversation_history w ++ [UserMessage message]) in
  let reply := MessageObject content None in
  chat_completions_create env (calls w) req = Returns reply →
  chat env message w =
    (Returns (Some (str_message env reply)),
     World (conversation_history w ++
              [UserMessage message; AssistantText (Some (str_message env reply))])
           (memory w)
           (calls w ++ [ChatCompletion req])).
Proof.
  intros req reply Hreply. unfold chat. run_chat.
  fold (first_request (conversation_history w ++ [UserMessage message])). fold req.
  rewrite Hreply. simpl. by rewrite <- app_assoc.
Qed.

Lemma chat_plain_reply_witness :
  chat_completions_create Sample.env (calls Sample.world0)
    (first_request (conversation_history Sample.world0 ++ [UserMessage "Hi"])) =
    Returns (MessageObject (Some "Hello") None) ∧
  fst (chat Sample.env "Hi" Sample.world0) =
    Returns (Some "ChatCompletionMessage(content='Hello', role='assistant', function_call=None)") ∧
  conversation_history (snd (chat Sample.env "Hi" Sample.world0)) =
    [ UserMessage "Hi";
      AssistantText
        (Some "ChatCompletionMessage(content='Hello', role='assistant', function_call=None)") ].
Proof.
  assert (Hreply : chat_completions_create Sample.env (calls Sample.world0)
                     (first_request (conversation_history Sample.world0 ++ [UserMessage "Hi"]))
                   = Returns (MessageObject (Some "Hello") None)) by reflexivity.
  pose proof (chat_plain_reply Sample.env "Hi" Sample.world0 (Some "Hello") Hreply) as H.
  split; [exact Hreply |].
  split; [exact (f_equal fst H) | exact (f_equal (fun r => conversation_history (snd r)) H)].
Defined.

(** When the message is a dict, the branch that reads [message.content] is
    taken and raises: nothing is appended after the user's entry and the
    caller gets an error text. *)
Lemma chat_dict_reply (env : environment) (message : string) (w : world)
    (items : gmap string string) :
  chat_completions_create env (calls w)
    (first_request (conversation_history w ++ [UserMessage message])) =
    Returns (MessageDict items) →
  fst (chat env message w) = Returns (Some "Error: 'dict' object has no attribute 'content'") ∧
  conversation_history (snd (chat env message w)) =
    conversation_history w ++ [UserMessage message].
Proof.
  intros Hreply. unfold chat. run_chat.
  fold (first_request (conversation_history w ++ [UserMessage message])).
  by rewrite Hreply.
Qed.

(** The second request of a turn with a tool carries the tool result as the
    last entry of the transcript and advertises no function. *)
Example sample_final_request :
  ∃ result,
    last (calls Sample.world2) =
      Some (ChatCompletion
              (Request "deepseek-chat"
                 [ UserMessage "Hi";
                   AssistantText
                     (Some "ChatCompletionMessage(content='Hello', role='assistant', function_call=None)");
                   UserMessage "What is the weather in Tokyo?";
                   AssistantCall "get_weather" Sample.tokyo_arguments;
                   FunctionResult "get_weather" result ]
                 None None (7 # 10))).
Proof. eexists. by vm_compute. Qed.

(** * Further properties *)

(** ** The weather lookup, case by case *)

Ltac run_weather :=
  unfold get_weather, try_except, requests_get_geocoding, requests_get_forecast,
    getitem, from_outcome, raise, log_call, get_world, mbind, M_bind, mret, M_ret;
  simpl.

Lemma get_weather_cases (env : environment) (city country : string) (w : world) :
  ∃ p later,
    get_weather env city country w =
      (Returns p,
       World (conversation_history w) (memory w) (calls w ++ GeocodingGet city 1 :: later)) ∧
    (later = [] ∨ ∃ lat lon, later = [ForecastGet lat lon]) ∧
    ((∃ msg, p = error_payload msg) ∨
     (∃ name place temperature wind_speed wind_direction conditions coordinates,
        p = weather_report name place temperature wind_speed wind_direction
              conditions coordinates)).
Proof.
  run_weather.
  destruct (geocoding_get env (calls w) city 1) as [[results]|e]; simpl;
    [| eexists _, []; split_and!; [done | by left | left; by eexists] ].
  destruct results as [[|[name place lat lon] results]|]; simpl;
    [ eexists _, []; split_and!; [done | by left | left; by eexists]
    | | eexists _, []; split_and!; [done | by left | left; by eexists] ].
  destruct lat as [lat|]; simpl;
    [| eexists _, []; split_and!; [done | by left | left; by eexists] ].
  destruct lon as [lon|]; simpl;
    [| eexists _, []; split_and!; [done | by left | left; by eexists] ].
  rewrite <- app_assoc. simpl.
  destruct (forecast_get env (calls w ++ [GeocodingGet city 1]) lat lon)
    as [[[[temperature windspeed winddirection weathercode]|]]|e]; simpl;
    [ | eexists _, [_]; split_and!; [done | right; by do 2 eexists | left; by eexists]
      | eexists _, [_]; split_and!; [done | right; by do 2 eexists | left; by eexists] ].
  destruct name, temperature, windspeed, winddirection, weathercode; simpl;
    eexists _, [_];
    (split_and!; [done | right; by do 2 eexists |]);
    first [ left; by eexists | right; by do 7 eexists ].
Qed.

(** X1. [get_weather] never raises: whatever the geocoder and the forecast
    provider answer or raise, it returns a payload, and that payload is
    either an error payload, whose only key is [error], or a report with
    exactly the seven keys city, country, temperature, wind_speed,
    wind_direction, conditions and coordinates. *)
Theorem get_weather_never_raises (env : environment) (city country : string) (w : world) :
  ∃ p, fst (get_weather env city country w) = Returns p ∧
       (dom p = {[ "error" ]} ∨
        dom p = list_to_set [ "city"; "country"; "temperature"; "wind_speed";
                              "wind_direction"; "conditions"; "coordinates" ]).
Proof.
  destruct (get_weather_cases env city country w) as (p & later & -> & _ & Hp).
  exists p. split; [done |].
  destruct Hp as [[msg ->] | (a & b & c & d & e & f & g & ->)].
  - left. unfold error_payload. by rewrite dom_singleton_L.
  - right. unfold weather_report. apply set_eq. intros k.
    rewrite !dom_insert, dom_singleton. set_solver.
Qed.

(** X2. [get_weather] sends exactly one geocoding request, for the city with
    count 1, and after it at most one forecast request; it makes no other
    outbound call and leaves the transcript and the stored document as they
    were. *)
Theorem get_weather_calls (env : environment) (city country : string) (w : world) :
  let w' := snd (get_weather env city country w) in
  (calls w' = calls w ++ [GeocodingGet city 1] ∨
   ∃ lat lon, calls w' = calls w ++ [GeocodingGet city 1; ForecastGet lat lon]) ∧
  conversation_history w' = conversation_history w ∧
  memory w' = memory w.
Proof.
  destruct (get_weather_cases env city country w) as (p & later & -> & Hlater & _).
  simpl. split_and!; [| done | done].
  destruct Hlater as [-> | (lat & lon & ->)]; [by left | right; by exists lat, lon].
Qed.

(** X3. When the geocoding request raises, [get_weather] returns
    [{error: "Weather data unavailable: <text of the exception>"}] and makes
    no forecast request. *)
Theorem get_weather_geocoder_raises (env : environment) (city country e : string)
    (w : world) :
  geocoding_get env (calls w) city 1 = Raises e →
  get_weather env city country w =
    (Returns (error_payload ("Weather data unavailable: " +:+ e)),
     World (conversation_history w) (memory w) (calls w ++ [GeocodingGet city 1])).
Proof. intros Hgeo. run_weather. by rewrite Hgeo. Qed.

Lemma get_weather_geocoder_raises_witness :
  geocoding_get Scenario.offline (calls Sample.world0) "Tokyo" 1 = Raises "Connection refused" ∧
  fst (get_weather Scenario.offline "Tokyo" "" Sample.world0) =
    Returns (error_payload "Weather data unavailable: Connection refused").
Proof.
  assert (Hgeo : geocoding_get Scenario.offline (calls Sample.world0) "Tokyo" 1
                 = Raises "Connection refused") by reflexivity.
  split; [exact Hgeo |].
  exact (f_equal fst (get_weather_geocoder_raises Scenario.offline "Tokyo" "" _
                        Sample.world0 Hgeo)).
Defined.



(** X5. When the geocoder resolves the city and the forecast request then
    raises, [get_weather] returns
    [{error: "Weather data unavailable: <text of the exception>"}]; when the
    forecast answers without current conditions it returns
    [{error: "Weather data unavailable"}].  In both cases the forecast was
    requested once, for the coordinates of the first geocoding result. *)
Theorem get_weather_forecast_fails (env : environment) (city country : string)
    (loc : location) (others : list location) (lat lon : Q)
    (answer : outcome weather_data) (w : world) :
  geocoding_get env (calls w) city 1 = Returns (GeoData (Some (loc :: others))) →
  loc_latitude loc = Some lat →
  loc_longitude loc = Some lon →
  forecast_get env (calls w ++ [GeocodingGet city 1]) lat lon = answer →
  answer = Returns (WeatherData None) ∨ (∃ e, answer = Raises e) →
  get_weather env city country w =
    (Returns (error_payload
                match answer with
                | Returns _ => "Weather data unavailable"
                | Raises e => "Weather data unavailable: " +:+ e
                end),
     World (conversation_history w) (memory w)
           (calls w ++ [GeocodingGet city 1; ForecastGet lat lon])).
Proof.
  intros Hgeo Hlat Hlon Hforecast Hanswer. run_weather.
  rewrite Hgeo. simpl. rewrite Hlat, Hlon. simpl. rewrite Hforecast.
  destruct Hanswer as [-> | [e ->]]; simpl; by rewrite <- app_assoc.
Qed.

Lemma get_weather_forecast_fails_witness :
  fst (get_weather Scenario.forecast_down "Tokyo" "" Sample.world0) =
    Returns (error_payload "Weather data unavailable: Read timed out") ∧
  fst (get_weather Scenario.forecast_empty "Tokyo" "" Sample.world0) =
    Returns (error_payload "Weather data unavailable").
Proof.
  split.
  - exact (f_equal fst
      (get_weather_forecast_fails Scenario.forecast_down "Tokyo" ""
         (Location (Some "Tokyo") (Some "Japan") (Some (357 # 10)) (Some (1397 # 10))) []
         (357 # 10) (1397 # 10) (Raises "Read timed out") Sample.world0
         eq_refl eq_refl eq_refl eq_refl (or_intror (ex_intro _ "Read timed out" eq_refl)))).
  - exact (f_equal fst
      (get_weather_forecast_fails Scenario.forecast_empty "Tokyo" ""
         (Location (Some "Tokyo") (Some "Japan") (Some (357 # 10)) (Some (1397 # 10))) []
         (357 # 10) (1397 # 10) (Returns (WeatherData None)) Sample.world0
         eq_refl eq_refl eq_refl eq_refl (or_introl eq_refl))).
Defined.

(** X6. When the geocoder returns results and the forecast carries all four
    current values, [get_weather] reports on the first result only: its
    name, its country (the empty string when the result has none, whatever
    country the caller passed), the values with their units, the
    description of the weather code, and its coordinates. *)
Theorem get_weather_report (env : environment) (city country name : string)
    (place : option string) (lat lon temperature windspeed winddirection : Q)
    (weathercode : Z) (others : list location) (w : world) :
  geocoding_get env (calls w) city 1 =
    Returns (GeoData (Some (Location (Some name) place (Some lat) (Some lon) :: others))) →
  forecast_get env (calls w ++ [GeocodingGet city 1]) lat lon =
    Returns (WeatherData (Some (CurrentWeather (Some temperature) (Some windspeed)
                                               (Some winddirection) (Some weathercode)))) →
  get_weather env city country w =
    (Returns (weather_report name (default "" place)
                (str_number env temperature +:+ "°C")
                (str_number env windspeed +:+ " km/h")
                (str_number env winddirection +:+ "°")
                (WeatherMCP._get_weather_description weathercode)
                (str_number env lat +:+ ", " +:+ str_number env lon)),
     World (conversation_history w) (memory w)
           (calls w ++ [GeocodingGet city 1; ForecastGet lat lon])).
Proof.
  intros Hgeo Hforecast. run_weather. rewrite Hgeo. simpl. rewrite Hforecast. simpl.
  by rewrite <- app_assoc.
Qed.

Lemma get_weather_report_witness :
  fst (get_weather Sample.env "Tokyo" "France" Sample.world0) =
    Returns (weather_report "Tokyo" "Japan" "21.5°C" "7.2 km/h" "180.0°"
               "Partly cloudy" "35.7, 139.7").
Proof.
  exact (f_equal fst
    (get_weather_report Sample.env "Tokyo" "France" "Tokyo" (Some "Japan")
       (357 # 10) (1397 # 10) (215 # 10) (72 # 10) (180 # 1) 2 [] Sample.world0
       eq_refl eq_refl)).
Defined.

(** ** The store, operation by operation *)

(** X7. [store_preference] writes the memory file once, after the update:
    the document written is the document the store then holds.  It keeps
    the order of the category's list (the earlier list is a prefix of the
    new one), and leaves the lists of all other categories, the
    conversations and the transcript as they were. *)
Theorem store_preference_effect (category preference : string) (w : world) :
  let w' := snd (store_preference category preference w) in
  calls w' = calls w ++ [MemoryFileWrite (memory w')] ∧
  preferences_of (memory w) category `prefix_of` preferences_of (memory w') category ∧
  (∀ other, other ≠ category →
            preferences_of (memory w') other = preferences_of (memory w) other) ∧
  doc_conversations (memory w') = doc_conversations (memory w) ∧
  conversation_history w' = conversation_history w.
Proof.
  intros w'. split_and!.
  - done.
  - subst w'. rewrite store_preference_items. case_bool_decide; [done |].
    by apply prefix_app_r.
  - intros other Hne. by apply store_preference_other.
  - subst w'. by rewrite store_preference_memory.
  - done.
Qed.

Lemma conversations_after_store (env : environment) (topic summary : string)
    (w : world) :
  conversations_of (memory (snd (store_conversation env topic summary w))) =
    conversations_of (memory w) ++
    [Conversation topic summary (now_isoformat env (calls w))].
Proof. done. Qed.

(** X8. [store_conversation] appends one entry with the topic, the summary
    and the time of the clock to the end of the conversations, whether or
    not an equal entry is already stored; it leaves the preferences as they
    were, writes the updated document to the memory file, and returns
    [{status: "stored", topic}]. *)
Theorem store_conversation_effect (env : environment) (topic summary : string) (w : world) :
  let result := store_conversation env topic summary w in
  let w' := snd result in
  fst result = Returns {[ "status" := VStr "stored"; "topic" := VStr topic ]} ∧
  conversations_of (memory w') =
    conversations_of (memory w) ++
    [Conversation topic summary (now_isoformat env (calls w))] ∧
  doc_preferences (memory w') = doc_preferences (memory w) ∧
  calls w' = calls w ++ [MemoryFileWrite (memory w')] ∧
  conversation_history w' = conversation_history w.
Proof.
  intros result w'. subst result w'. run_store. unfold conversations_of.
  by split_and!.
Qed.

(** X9. What [store_preference] stores, [get_preferences] returns: for a
    category that is not the empty string, the answer after the store is
    [{category: items}] with the preference among the items. *)
Theorem store_then_get_preferences (category preference : string) (w : world) :
  category ≠ "" →
  ∃ items,
    fst (get_preferences (Some category) (snd (store_preference category preference w))) =
      Returns {[ category := VList items ]} ∧
    preference ∈ items.
Proof.
  intros Hne. eexists. split.
  - by rewrite get_preferences_some.
  - apply store_preference_elem.
Qed.

Lemma store_then_get_preferences_witness :
  "food" ≠ "" ∧
  ∃ items,
    fst (get_preferences (Some "food") (snd (store_preference "food" "sushi" Sample.world0))) =
      Returns {[ "food" := VList items ]} ∧
    "sushi" ∈ items.
Proof.
  assert (Hne : "food" ≠ "") by discriminate.
  split; [exact Hne |].
  exact (store_then_get_preferences "food" "sushi" Sample.world0 Hne).
Defined.

(** X10. Stores under two different categories commute: in either order
    they leave the same document. *)
Theorem store_preference_commute (c1 p1 c2 p2 : string) (w : world) :
  c1 ≠ c2 →
  memory (snd (store_preference c2 p2 (snd (store_preference c1 p1 w)))) =
  memory (snd (store_preference c1 p1 (snd (store_preference c2 p2 w)))).
Proof.
  intros Hne.
  rewrite (store_preference_memory c2 p2), (store_preference_memory c1 p1 (snd _)).
  cbv zeta.
  rewrite (store_preference_other c1 p1 c2 w) by done.
  rewrite (store_preference_other c2 p2 c1 w) by done.
  rewrite !store_preference_memory. simpl. f_equal. f_equal.
  by apply insert_insert_ne.
Qed.

Lemma store_preference_commute_witness :
  "travel" ≠ "food" ∧
  memory (snd (store_preference "food" "sushi"
                 (snd (store_preference "travel" "hiking" Sample.world0)))) =
  memory (snd (store_preference "travel" "hiking"
                 (snd (store_preference "food" "sushi" Sample.world0)))).
Proof.
  assert (Hne : "travel" ≠ "food") by discriminate.
  split; [exact Hne |].
  exact (store_preference_commute "travel" "hiking" "food" "sushi" Sample.world0 Hne).
Defined.

Lemma append_empty_r (s : string) : s +:+ "" = s.
Proof.
  induction s as [|c s IH]; [done |].
  change (String c (s +:+ "") = String c s). by rewrite IH.
Qed.

Lemma contains_refl (s : string) : PyStr.contains s s = true.
Proof. apply contains_app. exists "", "". exact (eq_sym (append_empty_r s)). Qed.

Lemma last_n_snoc {A} (n : nat) (l : list A) (x : A) :
  PyStr.last_n (S n) (l ++ [x]) = PyStr.last_n n l ++ [x].
Proof.
  unfold PyStr.last_n. rewrite length_app. simpl.
  replace (length l + 1 - S n)%nat with (length l - n)%nat by lia.
  rewrite drop_app_le by lia. done.
Qed.

(** X11. What [store_conversation] stores, [get_conversations] returns last:
    with no topic the answer is the four entries stored latest before,
    followed by the new entry; with the stored topic itself, when it is not
    the empty string, the answer is the earlier matches followed by the new
    entry. *)
Theorem store_then_get_conversations (env : environment) (topic summary : string)
    (w : world) :
  let stored := conversations_of (memory w) in
  let new := Conversation topic summary (now_isoformat env (calls w)) in
  let w' := snd (store_conversation env topic summary w) in
  fst (get_conversations None w') =
    Returns {[ "conversations" := VConversations (PyStr.last_n 4 stored ++ [new]) ]} ∧
  (topic ≠ "" →
   fst (get_conversations (Some topic) w') =
     Returns {[ "conversations" :=
       VConversations
         (List.filter (fun c => PyStr.contains (PyStr.lower topic) (PyStr.lower (conv_topic c)))
                      stored ++ [new]) ]}).
Proof.
  intros stored new w'.
  assert (Hstored : conversations_of (memory w') = stored ++ [new])
    by apply (conversations_after_store env).
  split.
  - rewrite get_conversations_none. cbn [fst]. by rewrite Hstored, last_n_snoc.
  - intros Hne. rewrite get_conversations_some by done. cbn [fst].
    rewrite Hstored, List.filter_app. simpl. by rewrite contains_refl.
Qed.

Lemma store_then_get_conversations_witness :
  "Tokyo" ≠ "" ∧
  fst (get_conversations (Some "Tokyo")
         (snd (store_conversation Sample.env "Tokyo" "cherry blossom" Sample.world0))) =
    Returns {[ "conversations" :=
      VConversations [ Sample.conv "Trip to Tokyo";
                       Conversation "Tokyo" "cherry blossom" "2024-01-01T12:00:00" ] ]}.
Proof.
  assert (Hne : "Tokyo" ≠ "") by discriminate.
  split; [exact Hne |].
  exact (proj2 (store_then_get_conversations Sample.env "Tokyo" "cherry blossom"
                  Sample.world0) Hne).
Defined.

(** ** The dispatcher, tool by tool *)

Ltac listed := apply (bool_decide_unpack _); by vm_compute.

(** The branch [process_tool_call] takes. *)
Lemma process_tool_call_branch (env : environment) (tool_name : string)
    (kwargs : gmap string string) :
  (tool_name = "get_weather" ∧
   process_tool_call env tool_name kwargs =
     get_weather env (default "" (kwargs !! "city")) (default "" (kwargs !! "country"))) ∨
  (tool_name = "store_preference" ∧
   process_tool_call env tool_name kwargs =
     store_preference (default "" (kwargs !! "category"))
                      (default "" (kwargs !! "preference"))) ∨
  (tool_name = "get_preferences" ∧
   process_tool_call env tool_name kwargs = get_preferences (kwargs !! "category")) ∨
  (tool_name = "store_conversation" ∧
   process_tool_call env tool_name kwargs =
     store_conversation env (default "" (kwargs !! "topic"))
                        (default "" (kwargs !! "summary"))) ∨
  (tool_name = "get_conversations" ∧
   process_tool_call env tool_name kwargs = get_conversations (kwargs !! "topic")) ∨
  ((tool_name ∉ dispatched_names) ∧
   process_tool_call env tool_name kwargs =
     mret (error_payload ("Unknown tool: " +:+ tool_name))).
Proof.
  unfold process_tool_call.
  case_bool_decide as H1; [by left |]. right.
  case_bool_decide as H2; [by left |]. right.
  case_bool_decide as H3; [by left |]. right.
  case_bool_decide as H4; [by left |]. right.
  case_bool_decide as H5; [by left |]. right.
  split; [| done]. unfold dispatched_names.
  rewrite !not_elem_of_cons. split_and!; try done. apply not_elem_of_nil.
Qed.

Lemma get_preferences_returns (category : option string) (w : world) :
  ∃ p, get_preferences category w = (Returns p, w).
Proof.
  unfold get_preferences. run_store.
  destruct category as [c|]; [destruct (PyStr.truthy c) |]; by eexists.
Qed.

Lemma get_conversations_returns (topic : option string) (w : world) :
  ∃ l, get_conversations topic w = (Returns {[ "conversations" := VConversations l ]}, w).
Proof.
  unfold get_conversations. run_store.
  destruct topic as [t|]; [destruct (PyStr.truthy t) |]; by eexists.
Qed.


Lemma file_writes_app (l1 l2 : list call) :
  file_writes (l1 ++ l2) = file_writes l1 ++ file_writes l2.
Proof. apply omap_app. Qed.

(** X13. Only the two store tools change the stored document or write the
    memory file: under every other tool name, known or unknown,
    [process_tool_call] leaves the document as it was and writes nothing. *)
Theorem process_tool_call_read_only (env : environment) (tool_name : string)
    (kwargs : gmap string string) (w : world) :
  tool_name ≠ "store_preference" →
  tool_name ≠ "store_conversation" →
  memory (snd (process_tool_call env tool_name kwargs w)) = memory w ∧
  file_writes (calls (snd (process_tool_call env tool_name kwargs w))) =
    file_writes (calls w).
Proof.
  intros Hp Hc.
  destruct (process_tool_call_branch env tool_name kwargs)
    as [[_ ->] | [[? _] | [[_ ->] | [[? _] | [[_ ->] | [_ ->]]]]]]; [| done | | done | |].
  - destruct (get_weather_cases env (default "" (kwargs !! "city"))
                (default "" (kwargs !! "country")) w) as (p & later & -> & Hlater & _).
    simpl. split; [done |]. rewrite file_writes_app.
    destruct Hlater as [-> | (lat & lon & ->)]; simpl; by rewrite app_nil_r.
  - by destruct (get_preferences_returns (kwargs !! "category") w) as [p ->].
  - by destruct (get_conversations_returns (kwargs !! "topic") w) as [l ->].
  - done.
Qed.

Lemma process_tool_call_read_only_witness :
  "get_conversations" ≠ "store_preference" ∧
  "get_conversations" ≠ "store_conversation" ∧
  memory (snd (process_tool_call Sample.env "get_conversations" ∅ Sample.world0)) =
    memory Sample.world0.
Proof.
  assert (H1 : "get_conversations" ≠ "store_preference") by discriminate.
  assert (H2 : "get_conversations" ≠ "store_conversation") by discriminate.
  split_and!; [exact H1 | exact H2 |].
  exact (proj1 (process_tool_call_read_only Sample.env "get_conversations" ∅
                  Sample.world0 H1 H2)).
Defined.

Lemma process_tool_call_distinct (env : environment) (tool_name : string)
    (kwargs : gmap string string) (w : world) :
  distinct_preferences (memory w) →
  distinct_preferences (memory (snd (process_tool_call env tool_name kwargs w))).
Proof.
  intros Hd.
  destruct (process_tool_call_branch env tool_name kwargs)
    as [[_ ->] | [[_ ->] | [[_ ->] | [[_ ->] | [[_ ->] | [_ ->]]]]]].
  - by destruct (get_weather_cases env (default "" (kwargs !! "city"))
                   (default "" (kwargs !! "country")) w) as (p & later & -> & _).
  - by apply store_preference_distinct.
  - by destruct (get_preferences_returns (kwargs !! "category") w) as [p ->].
  - by apply store_conversation_distinct.
  - by destruct (get_conversations_returns (kwargs !! "topic") w) as [l ->].
  - done.
Qed.

(** X14. No run of tool calls through the dispatcher makes a category list a
    preference twice: if no category of the document does before the run,
    none does after it.  The empty document is such a document. *)
Theorem run_tools_distinct (env : environment)
    (tool_calls : list (string * gmap string string)) (w : world) :
  distinct_preferences (memory w) →
  distinct_preferences (memory (run_tools env tool_calls w)).
Proof.
  revert w. induction tool_calls as [|[name kwargs] rest IH]; intros w Hd; simpl; [done |].
  apply IH. by apply process_tool_call_distinct.
Qed.

Lemma run_tools_distinct_witness :
  distinct_preferences (memory (World [] empty_document [])) ∧
  distinct_preferences
    (memory (run_tools Sample.env
               [ ("store_preference", {[ "category" := "travel"; "preference" := "museums" ]});
                 ("get_weather", {[ "city" := "Tokyo" ]});
                 ("store_preference", {[ "category" := "travel"; "preference" := "museums" ]});
                 ("store_conversation", {[ "topic" := "Tokyo"; "summary" := "museums" ]}) ]
               (World [] empty_document []))).
Proof.
  split; [exact distinct_preferences_empty |].
  exact (run_tools_distinct Sample.env _ (World [] empty_document [])
           distinct_preferences_empty).
Defined.

(** X15. The dispatcher does not reject a call that lacks its arguments: a
    [store_preference] call with neither a category nor a preference stores
    the empty string as a preference under the empty string as category,
    and returns the payload of a successful store. *)
Theorem store_preference_without_arguments (env : environment)
    (kwargs : gmap string string) (w : world) :
  kwargs !! "category" = None →
  kwargs !! "preference" = None →
  let result := process_tool_call env "store_preference" kwargs w in
  fst result = Returns (stored_preference "" "") ∧
  "" ∈ preferences_of (memory (snd result)) "".
Proof.
  intros Hc Hp result. subst result.
  destruct (process_tool_call_branch env "store_preference" kwargs)
    as [[? _] | [[_ ->] | [[? _] | [[? _] | [[? _] | [Hnot _]]]]]];
    [done | | done | done | done | exfalso; apply Hnot; listed].
  rewrite Hc, Hp. simpl. split; [done | apply store_preference_elem].
Qed.

Lemma store_preference_without_arguments_witness :
  (∅ : gmap string string) !! "category" = None ∧
  "" ∈ preferences_of
         (memory (snd (process_tool_call Sample.env "store_preference" ∅ Sample.world0))) "".
Proof.
  split; [reflexivity |].
  exact (proj2 (store_preference_without_arguments Sample.env ∅ Sample.world0
                  eq_refl eq_refl)).
Defined.

Lemma Returns_inj {A} (a b : A) : Returns a = Returns b → a = b.
Proof. by intros [= ->]. Qed.

Lemma error_payload_inj (a b : string) : error_payload a = error_payload b → a = b.
Proof.
  intros H. apply (f_equal (.!! "error")) in H. unfold error_payload in H.
  rewrite !lookup_singleton_eq in H. congruence.
Qed.

Lemma weather_report_not_error (a b c d e f g msg : string) :
  weather_report a b c d e f g ≠ error_payload msg.
Proof.
  intros H. apply (f_equal (.!! "city")) in H. unfold weather_report, error_payload in H.
  rewrite lookup_insert_eq, lookup_singleton_ne in H; done.
Qed.

(** The error texts of [get_weather]. *)
Lemma get_weather_messages (env : environment) (city country msg : string) (w : world) :
  fst (get_weather env city country w) = Returns (error_payload msg) →
  msg = "City '" +:+ city +:+ "' not found" ∨
  msg = "Weather data unavailable" ∨
  ∃ e, msg = "Weather data unavailable: " +:+ e.
Proof.
  run_weather.
  destruct (geocoding_get env (calls w) city 1) as [[results]|e]; simpl;
    [| intros H%Returns_inj%error_payload_inj; right; right; by eexists ].
  destruct results as [[|[name place lat lon] results]|]; simpl;
    [ intros H%Returns_inj%error_payload_inj; by left
    | | intros H%Returns_inj%error_payload_inj; by left ].
  destruct lat as [lat|]; simpl;
    [| intros H%Returns_inj%error_payload_inj; right; right; by eexists ].
  destruct lon as [lon|]; simpl;
    [| intros H%Returns_inj%error_payload_inj; right; right; by eexists ].
  destruct (forecast_get env (calls w ++ [GeocodingGet city 1]) lat lon)
    as [[[[temperature windspeed winddirection weathercode]|]]|e]; simpl;
    [ | intros H%Returns_inj%error_payload_inj; right; by left
      | intros H%Returns_inj%error_payload_inj; right; right; by eexists ].
  destruct name, temperature, windspeed, winddirection, weathercode; simpl;
    intros H%Returns_inj;
    first [ by apply weather_report_not_error in H
          | apply error_payload_inj in H; right; right; by eexists ].
Qed.

(** X16. The dispatcher and the listing of tools agree: [process_tool_call]
    answers [{error: "Unknown tool: <name>"}] exactly for the names that
    [get_available_tools] does not list. *)
Theorem unknown_tool_iff_not_listed (env : environment) (tool_name : string)
    (kwargs : gmap string string) (w : world) :
  fst (process_tool_call env tool_name kwargs w) =
    Returns (error_payload ("Unknown tool: " +:+ tool_name))
  ↔ tool_name ∉ dom get_available_tools.
Proof.
  rewrite get_available_tools_names, elem_of_list_to_set.
  destruct (process_tool_call_branch env tool_name kwargs)
    as [[-> ->] | [[-> ->] | [[-> ->] | [[-> ->] | [[-> ->] | [Hnot ->]]]]]];
    [ | | | | | by split ].
  - split; [| intros Hnot; exfalso; apply Hnot; listed].
    intros H. apply get_weather_messages in H as [H | [H | [e H]]];
      vm_compute in H; discriminate H.
  - split; [| intros Hnot; exfalso; apply Hnot; listed].
    intros H%Returns_inj. apply (f_equal (.!! "status")) in H.
    unfold error_payload in H. rewrite lookup_insert_eq, lookup_singleton_ne in H; done.
  - split; [| intros Hnot; exfalso; apply Hnot; listed].
    unfold get_preferences. run_store.
    destruct (kwargs !! "category") as [c|]; [destruct (PyStr.truthy c) |]; simpl;
      intros H%Returns_inj; apply (f_equal (.!! "error")) in H; unfold error_payload in H;
      rewrite lookup_singleton_eq in H.
    + rewrite lookup_singleton in H. by case_decide.
    + rewrite lookup_fmap in H. by destruct (_ !! "error").
    + rewrite lookup_fmap in H. by destruct (_ !! "error").
  - split; [| intros Hnot; exfalso; apply Hnot; listed].
    intros H%Returns_inj. apply (f_equal (.!! "status")) in H.
    unfold error_payload in H. rewrite lookup_insert_eq, lookup_singleton_ne in H; done.
  - split; [| intros Hnot; exfalso; apply Hnot; listed].
    destruct (get_conversations_returns (kwargs !! "topic") w) as [l ->].
    intros H%Returns_inj. apply (f_equal (.!! "error")) in H.
    unfold error_payload in H. rewrite lookup_singleton_eq, lookup_singleton_ne in H; done.
Qed.

(** ** The chat turn, path by path *)

Lemma call_process_tool_call_plain (env : environment) (function_name : string)
    (function_args : gmap string string) :
  function_args !! "self" = None →
  function_args !! "tool_name" = None →
  call_process_tool_call env function_name function_args =
    process_tool_call env function_name function_args.
Proof.
  intros Hself Hname. unfold call_process_tool_call. rewrite Hself, Hname.
  rewrite !bool_decide_eq_false_2; [done | by intros [? ?]].
Qed.


(** X17. When the first request to the model raises, [chat] does not raise:
    it returns ["Error: <text of the exception>"]; the user's entry stays in
    the transcript and nothing follows it, no tool runs and the stored
    document is as it was. *)
Theorem chat_endpoint_failure (env : environment) (message e : string) (w : world) :
  let req := first_request (conversation_history w ++ [UserMessage message]) in
  chat_completions_create env (calls w) req = Raises e →
  chat env message w =
    (Returns (Some ("Error: " +:+ e)),
     World (conversation_history w ++ [UserMessage message]) (memory w)
           (calls w ++ [ChatCompletion req])).
Proof.
  intros req Hreply. unfold chat. run_chat.
  fold (first_request (conversation_history w ++ [UserMessage message])). fold req.
  by rewrite Hreply.
Qed.

Lemma chat_endpoint_failure_witness :
  chat_completions_create Scenario.offline (calls Sample.world0)
    (first_request (conversation_history Sample.world0 ++ [UserMessage "Hi"])) =
    Raises "Connection error." ∧
  chat Scenario.offline "Hi" Sample.world0 =
    (Returns (Some "Error: Connection error."),
     World [UserMessage "Hi"] Sample.doc [ChatCompletion (first_request [UserMessage "Hi"])]).
Proof.
  split; [reflexivity |].
  exact (chat_endpoint_failure Scenario.offline "Hi" "Connection error." Sample.world0 eq_refl).
Defined.

(** X18. When the model asks for a tool with an argument text that
    [json.loads] rejects, [chat] returns ["Error: <text of the exception>"]:
    no tool runs, and neither the intent nor a result is appended to the
    transcript. *)
Theorem chat_bad_arguments (env : environment) (message name arguments e : string)
    (content : option string) (w : world) :
  let req := first_request (conversation_history w ++ [UserMessage message]) in
  chat_completions_create env (calls w) req =
    Returns (MessageObject content (Some (FunctionCall name arguments))) →
  json_loads env arguments = Raises e →
  chat env message w =
    (Returns (Some ("Error: " +:+ e)),
     World (conversation_history w ++ [UserMessage message]) (memory w)
           (calls w ++ [ChatCompletion req])).
Proof.
  intros req Hreply Hloads. unfold chat. run_chat.
  fold (first_request (conversation_history w ++ [UserMessage message])). fold req.
  rewrite Hreply. simpl. unfold _handle_function_call. run_chat. by rewrite Hloads.
Qed.

Lemma chat_bad_arguments_witness :
  json_loads Scenario.asks_badly "{city: Tokyo" = Raises "Expecting value: line 1 column 1 (char 0)" ∧
  chat Scenario.asks_badly "What is the weather in Tokyo?" Sample.world0 =
    (Returns (Some "Error: Expecting value: line 1 column 1 (char 0)"),
     World [UserMessage "What is the weather in Tokyo?"] Sample.doc
           [ChatCompletion (first_request [UserMessage "What is the weather in Tokyo?"])]).
Proof.
  split; [reflexivity |].
  exact (chat_bad_arguments Scenario.asks_badly "What is the weather in Tokyo?" "get_weather" "{city: Tokyo" _
           None Sample.world0 eq_refl eq_refl).
Defined.



(** A turn in which the model asks for a tool whose arguments parse, up to
    the answer to the second request. *)
Lemma tool_turn_run (env : environment) (message name arguments : string)
    (content : option string) (args : gmap string string) (p : payload) (w w2 : world) :
  let req := first_request (conversation_history w ++ [UserMessage message]) in
  let w1 := World (conversation_history w ++ [UserMessage message]) (memory w)
                  (calls w ++ [ChatCompletion req]) in
  let h3 := conversation_history w ++
            [ UserMessage message; AssistantCall name arguments;
              FunctionResult name (json_dumps env p) ] in
  chat_completions_create env (calls w) req =
    Returns (MessageObject content (Some (FunctionCall name arguments))) →
  json_loads env arguments = Returns args →
  args !! "self" = None →
  args !! "tool_name" = None →
  process_tool_call env name args w1 = (Returns p, w2) →
  chat env message w =
    match chat_completions_create env (calls w2) (final_request h3) with
    | Returns (MessageObject text _) =>
        (Returns text,
         World (h3 ++ [AssistantText text]) (memory w2)
               (calls w2 ++ [ChatCompletion (final_request h3)]))
    | Returns (MessageDict _) =>
        (Returns (Some "Error processing tool result: 'dict' object has no attribute 'content'"),
         World h3 (memory w2) (calls w2 ++ [ChatCompletion (final_request h3)]))
    | Raises e =>
        (Returns (Some ("Error processing tool result: " +:+ e)),
         World h3 (memory w2) (calls w2 ++ [ChatCompletion (final_request h3)]))
    end.
Proof.
  intros req w1 h3 Hreply Hloads Hself Hname Htool.
  assert (Hh : conversation_history w2 = conversation_history w ++ [UserMessage message]).
  { destruct (only_logs_process_tool_call env name args w1) as [Hh _].
    by rewrite Htool in Hh. }
  unfold chat. run_chat.
  fold (first_request (conversation_history w ++ [UserMessage message])). fold req.
  rewrite Hreply. simpl. unfold _handle_function_call. run_chat. rewrite Hloads. simpl.
  rewrite call_process_tool_call_plain by done. fold w1. rewrite Htool. simpl.
  rewrite Hh, <- !app_assoc. simpl.
  unfold final_request, h3.
  match goal with
  | |- context [chat_completions_create env (calls w2) ?r] =>
      destruct (chat_completions_create env (calls w2) r) as [[text ?|?]|e]
  end; simpl; rewrite <- ?app_assoc; reflexivity.
Qed.

(** X20. A full turn with a tool.  When the model asks for a tool with
    arguments that parse, the dispatcher runs first, on the world that holds
    the user's entry; then the intent and the result, which carries
    [json.dumps] of the tool's payload under the tool's name, are appended;
    the second request carries that transcript and no function list; and
    the text of its answer is appended as the assistant's entry and
    returned.  What the tool did to the store stays. *)
Theorem chat_tool_turn (env : environment) (message name arguments : string)
    (content text : option string) (again : option function_call)
    (args : gmap string string) (p : payload) (w w2 : world) :
  let req := first_request (conversation_history w ++ [UserMessage message]) in
  let w1 := World (conversation_history w ++ [UserMessage message]) (memory w)
                  (calls w ++ [ChatCompletion req]) in
  let h3 := conversation_history w ++
            [ UserMessage message; AssistantCall name arguments;
              FunctionResult name (json_dumps env p) ] in
  chat_completions_create env (calls w) req =
    Returns (MessageObject content (Some (FunctionCall name arguments))) →
  json_loads env arguments = Returns args →
  args !! "self" = None →
  args !! "tool_name" = None →
  process_tool_call env name args w1 = (Returns p, w2) →
  chat_completions_create env (calls w2) (final_request h3) =
    Returns (MessageObject text again) →
  chat env message w =
    (Returns text,
     World (h3 ++ [AssistantText text]) (memory w2)
           (calls w2 ++ [ChatCompletion (final_request h3)])).
Proof.
  intros req w1 h3 Hreply Hloads Hself Hname Htool Hfinal.
  rewrite (tool_turn_run env message name arguments content args p w w2)
    by done.
  fold h3. by rewrite Hfinal.
Qed.

(** X21. When the second request of a turn with a tool raises, [chat]
    returns ["Error processing tool result: <text of the exception>"]; the
    intent and the result stay in the transcript without an assistant's
    text after them, and what the tool did to the store is not undone. *)
Theorem chat_final_failure (env : environment) (message name arguments e : string)
    (content : option string) (args : gmap string string) (p : payload) (w w2 : world) :
  let req := first_request (conversation_history w ++ [UserMessage message]) in
  let w1 := World (conversation_history w ++ [UserMessage message]) (memory w)
                  (calls w ++ [ChatCompletion req]) in
  let h3 := conversation_history w ++
            [ UserMessage message; AssistantCall name arguments;
              FunctionResult name (json_dumps env p) ] in
  chat_completions_create env (calls w) req =
    Returns (MessageObject content (Some (FunctionCall name arguments))) →
  json_loads env arguments = Returns args →
  args !! "self" = None →
  args !! "tool_name" = None →
  process_tool_call env name args w1 = (Returns p, w2) →
  chat_completions_create env (calls w2) (final_request h3) = Raises e →
  chat env message w =
    (Returns (Some ("Error processing tool result: " +:+ e)),
     World h3 (memory w2) (calls w2 ++ [ChatCompletion (final_request h3)])).
Proof.
  intros req w1 h3 Hreply Hloads Hself Hname Htool Hfinal.
  rewrite (tool_turn_run env message name arguments content args p w w2)
    by done.
  fold h3. by rewrite Hfinal.
Qed.

Lemma chat_tool_turn_witness :
  fst (chat Scenario.store_turn "I like museums" Scenario.fresh) = Returns (Some "Noted.") ∧
  conversation_history (snd (chat Scenario.store_turn "I like museums" Scenario.fresh)) =
    [ UserMessage "I like museums";
      AssistantCall "store_preference" Scenario.travel_arguments;
      FunctionResult "store_preference"
        (json_dumps Scenario.store_turn (stored_preference "travel" "museums"));
      AssistantText (Some "Noted.") ] ∧
  preferences_of (memory (snd (chat Scenario.store_turn "I like museums" Scenario.fresh)))
    "travel" = ["museums"].
Proof.
  set (w := Scenario.fresh).
  set (args := ({[ "category" := "travel"; "preference" := "museums" ]} : gmap string string)).
  set (w1 := World [UserMessage "I like museums"] empty_document
                   [ChatCompletion (first_request [UserMessage "I like museums"])]).
  assert (Htool : process_tool_call Scenario.store_turn "store_preference" args w1 =
                  (Returns (stored_preference "travel" "museums"),
                   snd (process_tool_call Scenario.store_turn "store_preference" args w1)))
    by (by vm_compute).
  pose proof (chat_tool_turn Scenario.store_turn "I like museums" "store_preference"
                Scenario.travel_arguments None (Some "Noted.") None args
                (stored_preference "travel" "museums") w _
                eq_refl eq_refl eq_refl eq_refl Htool eq_refl) as H.
  rewrite H. split_and!; [done | done | by vm_compute].
Defined.

Lemma chat_final_failure_witness :
  fst (chat Scenario.store_turn_cut "I like museums" Scenario.fresh) =
    Returns (Some "Error processing tool result: Connection error.") ∧
  conversation_history (snd (chat Scenario.store_turn_cut "I like museums" Scenario.fresh)) =
    [ UserMessage "I like museums";
      AssistantCall "store_preference" Scenario.travel_arguments;
      FunctionResult "store_preference"
        (json_dumps Scenario.store_turn_cut (stored_preference "travel" "museums")) ] ∧
  preferences_of (memory (snd (chat Scenario.store_turn_cut "I like museums" Scenario.fresh)))
    "travel" = ["museums"].
Proof.
  set (w := Scenario.fresh).
  set (args := ({[ "category" := "travel"; "preference" := "museums" ]} : gmap string string)).
  set (w1 := World [UserMessage "I like museums"] empty_document
                   [ChatCompletion (first_request [UserMessage "I like museums"])]).
  assert (Htool : process_tool_call Scenario.store_turn_cut "store_preference" args w1 =
                  (Returns (stored_preference "travel" "museums"),
                   snd (process_tool_call Scenario.store_turn_cut "store_preference" args w1)))
    by (by vm_compute).
  pose proof (chat_final_failure Scenario.store_turn_cut "I like museums" "store_preference"
                Scenario.travel_arguments "Connection error." None args
                (stored_preference "travel" "museums") w _
                eq_refl eq_refl eq_refl eq_refl Htool eq_refl) as H.
  rewrite H. split_and!; [done | done | by vm_compute].
Defined.

Lemma bind_history_append {B} (e : entry) (k : unit → M B) (w : world) :
  (history_append e ≫= k) w =
    k tt (World (conversation_history w ++ [e]) (memory w) (calls w)).
Proof. done. Qed.

Lemma try_except_returns {A} (m : M A) (f : string → A) (w : world) :
  ∃ r, fst (try_except m (fun e => mret (f e)) w) = Returns r.
Proof. unfold try_except. destruct (m w) as [[a|e] w']; by eexists. Qed.

(** X22. [chat] never raises, whatever the model, the parser, the network
    and the tools do, and it never removes or rewrites an entry of the
    transcript: the new transcript is the old one, then the user's entry,
    then at most three further entries. *)
Theorem chat_never_raises (env : environment) (message : string) (w : world) :
  ∃ r block,
    fst (chat env message w) = Returns r ∧
    conversation_history (snd (chat env message w)) =
      conversation_history w ++ UserMessage message :: block ∧
    (length block ≤ 3)%nat.
Proof.
  assert (Hret : ∃ r, fst (chat env message w) = Returns r).
  { unfold chat. rewrite bind_history_append. apply try_except_returns. }
  destruct Hret as [r Hr].
  destruct (chat_effect env message w) as (block & later & Hblock & Hh & _).
  exists r, block. split_and!; [done | done |].
  destruct Hblock; simpl; lia.
Qed.

Lemma paired_result_preceded (h : list entry) (i : nat) (name content : string) :
  paired h →
  h !! i = Some (FunctionResult name content) →
  ∃ j arguments, i = S j ∧ h !! j = Some (AssistantCall name arguments).
Proof.
  intros Hp. revert i.
  induction Hp as [| c h Hp IH | c h Hp IH | n a c h Hp IH]; intros i Hi.
  - done.
  - destruct i as [|i]; [done |].
    destruct (IH i Hi) as (j & arguments & -> & Hj). by exists (S j), arguments.
  - destruct i as [|i]; [done |].
    destruct (IH i Hi) as (j & arguments & -> & Hj). by exists (S j), arguments.
  - destruct i as [|[|i]]; simpl in Hi.
    + done.
    + injection Hi as -> ->. by exists 0%nat, a.
    + destruct (IH i Hi) as (j & arguments & -> & Hj). by exists (S (S j)), arguments.
Qed.

(** X23. In every transcript a sequence of chat turns leads to, a tool
    result never stands alone: the entry right before it is the tool-call
    intent that names the same tool. *)
Theorem result_preceded_by_its_call (env : environment) (w : world)
    (i : nat) (name content : string) :
  reachable env w →
  conversation_history w !! i = Some (FunctionResult name content) →
  ∃ j arguments,
    i = S j ∧ conversation_history w !! j = Some (AssistantCall name arguments).
Proof. intros Hreach. by apply paired_result_preceded, (reachable_paired env). Qed.

Lemma result_preceded_by_its_call_witness :
  reachable Sample.env Sample.world2 ∧
  (∃ content, conversation_history Sample.world2 !! 4%nat =
                Some (FunctionResult "get_weather" content)) ∧
  ∃ arguments, conversation_history Sample.world2 !! 3%nat =
                 Some (AssistantCall "get_weather" arguments).
Proof.
  assert (Hreach : reachable Sample.env Sample.world2)
    by (do 2 apply reachable_chat; apply reachable_init).
  assert (Hresult : ∃ content, conversation_history Sample.world2 !! 4%nat =
                                 Some (FunctionResult "get_weather" content))
    by (eexists; by vm_compute).
  split_and!; [exact Hreach | exact Hresult |].
  destruct Hresult as [content Hresult].
  destruct (result_preceded_by_its_call Sample.env Sample.world2 4 "get_weather" content
              Hreach Hresult) as (j & arguments & Hj & Hcall).
  injection Hj as <-. by exists arguments.
Defined.

Lemma completion_requests_app (l1 l2 : list call) :
  completion_requests (l1 ++ l2) = completion_requests l1 ++ completion_requests l2.
Proof. apply omap_app. Qed.

Lemma process_tool_call_no_request (env : environment) (tool_name : string)
    (kwargs : gmap string string) (w : world) :
  completion_requests (calls (snd (process_tool_call env tool_name kwargs w))) =
    completion_requests (calls w).
Proof.
  destruct (process_tool_call_branch env tool_name kwargs)
    as [[_ ->] | [[_ ->] | [[_ ->] | [[_ ->] | [[_ ->] | [_ ->]]]]]].
  - destruct (get_weather_cases env (default "" (kwargs !! "city"))
                (default "" (kwargs !! "country")) w) as (p & later & -> & Hlater & _).
    simpl. rewrite completion_requests_app.
    destruct Hlater as [-> | (lat & lon & ->)]; simpl; by rewrite app_nil_r.
  - run_store. rewrite completion_requests_app. simpl. by rewrite app_nil_r.
  - by destruct (get_preferences_returns (kwargs !! "category") w) as [p ->].
  - run_store. rewrite completion_requests_app. simpl. by rewrite app_nil_r.
  - by destruct (get_conversations_returns (kwargs !! "topic") w) as [l ->].
  - done.
Qed.

Lemma call_process_tool_call_no_request (env : environment) (function_name : string)
    (function_args : gmap string string) (w : world) :
  completion_requests
    (calls (snd (call_process_tool_call env function_name function_args w))) =
    completion_requests (calls w).
Proof.
  unfold call_process_tool_call. repeat case_bool_decide; [done | done |].
  apply process_tool_call_no_request.
Qed.

Lemma handle_function_call_requests (env : environment) (reply : message) (w : world) :
  let w' := snd (_handle_function_call env reply w) in
  completion_requests (calls w') = completion_requests (calls w) ∨
  ∃ name arguments result,
    completion_requests (calls w') =
      completion_requests (calls w) ++
      [final_request (conversation_history w ++
                        [AssistantCall name arguments; FunctionResult name result])].
Proof.
  unfold _handle_function_call.
  destruct reply as [content [fc|] | items]; [| by left | by left].
  run_chat.
  destruct (json_loads env (fc_arguments fc)) as [args|e]; simpl; [| by left].
  pose proof (call_process_tool_call_no_request env (fc_name fc) args w) as Hreq.
  destruct (only_logs_call_process_tool_call env (fc_name fc) args w) as [Hh _].
  destruct (call_process_tool_call env (fc_name fc) args w) as [[p|e] w1]; simpl in *;
    [| by left].
  rewrite Hh, <- !app_assoc. simpl.
  right. exists (fc_name fc), (fc_arguments fc), (json_dumps env p).
  match goal with
  | |- context [chat_completions_create env ?log ?req] =>
      destruct (chat_completions_create env log req) as [[final_content ?|?]|e]
  end; simpl; by rewrite completion_requests_app, Hreq.
Qed.

(** X24. A chat turn sends the model one request that offers the functions,
    with the transcript up to the user's entry, and at most one request
    more; the second request offers no function, and its transcript ends
    with a tool-call intent and the result of that tool. *)
Theorem chat_requests (env : environment) (message : string) (w : world) :
  let h1 := conversation_history w ++ [UserMessage message] in
  let sent := completion_requests (calls (snd (chat env message w))) in
  sent = completion_requests (calls w) ++ [first_request h1] ∨
  ∃ name arguments result,
    sent = completion_requests (calls w) ++
           [ first_request h1;
             final_request (h1 ++ [AssistantCall name arguments;
                                   FunctionResult name result]) ].
Proof.
  intros h1 sent. subst sent. unfold chat. run_chat.
  fold (first_request (conversation_history w ++ [UserMessage message])). fold h1.
  assert (Hfirst : completion_requests (calls w ++ [ChatCompletion (first_request h1)]) =
                   completion_requests (calls w) ++ [first_request h1])
    by (by rewrite completion_requests_app).
  destruct (chat_completions_create env (calls w) (first_request h1)) as [reply|e]; simpl;
    [| by left].
  destruct (wants_function_call reply) eqn:Hwants.
  - match goal with
    | |- context [_handle_function_call env reply ?w1] =>
        pose proof (handle_function_call_requests env reply w1) as Hreq;
        destruct (_handle_function_call env reply w1) as [[r|e] w2]
    end; simpl in *; rewrite Hfirst in Hreq;
      (destruct Hreq as [-> | (name & arguments & result & ->)];
       [by left | right; exists name, arguments, result; by rewrite <- app_assoc]).
  - destruct reply as [content [fc|] | items]; simpl in *; [done | by left | by left].
Qed.

Lemma handle_function_call_memory (env : environment) (reply : message) (w : world) :
  let w' := snd (_handle_function_call env reply w) in
  memory w' = memory w ∨
  ∃ name args, memory w' = memory (snd (process_tool_call env name args w)).
Proof.
  unfold _handle_function_call.
  destruct reply as [content [fc|] | items]; [| by left | by left].
  run_chat.
  destruct (json_loads env (fc_arguments fc)) as [args|e]; simpl; [| by left].
  unfold call_process_tool_call.
  case_bool_decide; [by left |]. case_bool_decide; [by left |].
  right. exists (fc_name fc), args.
  destruct (process_tool_call env (fc_name fc) args w) as [[p|e] w1]; simpl; [| done].
  match goal with
  | |- context [chat_completions_create env ?log ?req] =>
      by destruct (chat_completions_create env log req) as [[final_content ?|?]|e]
  end.
Qed.

Lemma chat_memory (env : environment) (message : string) (w : world) :
  let w' := snd (chat env message w) in
  memory w' = memory w ∨
  ∃ name args w1, memory w1 = memory w ∧
                  memory w' = memory (snd (process_tool_call env name args w1)).
Proof.
  unfold chat. run_chat.
  match goal with
  | |- context [chat_completions_create env ?log ?req] =>
      destruct (chat_completions_create env log req) as [reply|e]; simpl; [| by left]
  end.
  destruct (wants_function_call reply) eqn:Hwants.
  - match goal with
    | |- context [_handle_function_call env reply ?w1] =>
        pose proof (handle_function_call_memory env reply w1) as Hmem;
        destruct (_handle_function_call env reply w1) as [[r|e] w2] eqn:Hrun
    end; simpl in *;
      (destruct Hmem as [Hm | (name & args & Hm)];
       [by left | right; eexists name, args, _; split; [| exact Hm]; done]).
  - destruct reply as [content [fc|] | items]; simpl in *; [done | by left | by left].
Qed.

(** X25. A chat turn does not break the store: if no category of the
    document lists a preference twice before the turn, none does after it,
    whatever tool the model asks for and with whatever arguments. *)
Theorem chat_distinct_preferences (env : environment) (message : string) (w : world) :
  distinct_preferences (memory w) →
  distinct_preferences (memory (snd (chat env message w))).
Proof.
  intros Hd.
  destruct (chat_memory env message w) as [-> | (name & args & w1 & Hw1 & ->)]; [done |].
  apply process_tool_call_distinct. by rewrite Hw1.
Qed.

Lemma chat_distinct_preferences_witness :
  distinct_preferences (memory Scenario.fresh) ∧
  distinct_preferences
    (memory (snd (chat Scenario.store_turn "I like museums"
                    (snd (chat Scenario.store_turn "I like museums" Scenario.fresh))))).
Proof.
  split; [exact distinct_preferences_empty |].
  apply chat_distinct_preferences, chat_distinct_preferences.
  exact distinct_preferences_empty.
Defined.

(** X26. When the model asks for a tool the dispatcher does not know, the
    turn goes on as with any tool: the intent and a result that carries
    [{error: "Unknown tool: <name>"}] are appended, the second request is
    sent, and its text is returned; the store is left as it was. *)
Theorem chat_unknown_tool (env : environment) (message name arguments : string)
    (content text : option string) (again : option function_call)
    (args : gmap string string) (w : world) :
  let req := first_request (conversation_history w ++ [UserMessage message]) in
  let h3 := conversation_history w ++
            [ UserMessage message; AssistantCall name arguments;
              FunctionResult name
                (json_dumps env (error_payload ("Unknown tool: " +:+ name))) ] in
  name ∉ dispatched_names →
  chat_completions_create env (calls w) req =
    Returns (MessageObject content (Some (FunctionCall name arguments))) →
  json_loads env arguments = Returns args →
  args !! "self" = None →
  args !! "tool_name" = None →
  chat_completions_create env (calls w ++ [ChatCompletion req]) (final_request h3) =
    Returns (MessageObject text again) →
  chat env message w =
    (Returns text,
     World (h3 ++ [AssistantText text]) (memory w)
           (calls w ++ [ChatCompletion req; ChatCompletion (final_request h3)])).
Proof.
  intros req h3 Hnot Hreply Hloads Hself Hname Hfinal.
  set (w1 := World (conversation_history w ++ [UserMessage message]) (memory w)
                   (calls w ++ [ChatCompletion req])).
  assert (Htool : process_tool_call env name args w1 =
                  (Returns (error_payload ("Unknown tool: " +:+ name)), w1)).
  { destruct (process_tool_call_branch env name args)
      as [[-> _] | [[-> _] | [[-> _] | [[-> _] | [[-> _] | [_ ->]]]]]];
      [exfalso; apply Hnot; listed .. | done]. }
  rewrite (tool_turn_run env message name arguments content args _ w w1
             Hreply Hloads Hself Hname Htool).
  fold h3. simpl. rewrite Hfinal. by rewrite <- app_assoc.
Qed.

Lemma chat_unknown_tool_witness :
  ("send_email" ∉ dispatched_names) ∧
  chat Scenario.asks_unknown "Send an email" Scenario.fresh =
    (Returns (Some "I cannot send email."),
     World [ UserMessage "Send an email";
             AssistantCall "send_email" Sample.tokyo_arguments;
             FunctionResult "send_email"
               (json_dumps Scenario.asks_unknown (error_payload "Unknown tool: send_email"));
             AssistantText (Some "I cannot send email.") ]
           empty_document
           [ ChatCompletion (first_request [UserMessage "Send an email"]);
             ChatCompletion
               (final_request
                  [ UserMessage "Send an email";
                    AssistantCall "send_email" Sample.tokyo_arguments;
                    FunctionResult "send_email"
                      (json_dumps Scenario.asks_unknown
                         (error_payload "Unknown tool: send_email")) ]) ]).
Proof.
  assert (Hnot : "send_email" ∉ dispatched_names) by listed.
  split; [exact Hnot |].
  exact (chat_unknown_tool Scenario.asks_unknown "Send an email" "send_email"
           Sample.tokyo_arguments None (Some "I cannot send email.") None
           {[ "city" := "Tokyo" ]} Scenario.fresh Hnot eq_refl eq_refl eq_refl eq_refl eq_refl).
Defined.

(** X27. The filter of [get_conversations] does not look at the case of the
    topic asked for: two topics that are equal up to the case of their
    letters get the same answer. *)
Theorem get_conversations_case_insensitive (t1 t2 : string) (w : world) :
  t1 ≠ "" →
  PyStr.lower t1 = PyStr.lower t2 →
  get_conversations (Some t1) w = get_conversations (Some t2) w.
Proof.
  intros Hne Hlower.
  assert (Hne2 : t2 ≠ "") by (intros ->; by destruct t1).
  rewrite !get_conversations_some by done. by rewrite Hlower.
Qed.

Lemma get_conversations_case_insensitive_witness :
  "TRIP" ≠ "" ∧
  PyStr.lower "TRIP" = PyStr.lower "trip" ∧
  get_conversations (Some "TRIP") Sample.world0 = get_conversations (Some "trip") Sample.world0.
Proof.
  assert (Hne : "TRIP" ≠ "") by discriminate.
  split_and!; [exact Hne | reflexivity |].
  exact (get_conversations_case_insensitive "TRIP" "trip" Sample.world0 Hne eq_refl).
Defined.

(** X28. "Unknown conditions" is the description of the codes the table
    does not list, and of no code it lists. *)
Theorem unknown_conditions_iff_unlisted (code : Z) :
  WeatherMCP._get_weather_description code = "Unknown conditions"
  ↔ code ∉ (WeatherMCP.weather_codes).*1.
Proof.
  split; [| apply weather_description_unlisted].
  intros Hdesc Hin. apply list_elem_of_fmap in Hin as ([code' description] & -> & Hin).
  simpl in Hdesc. rewrite (weather_description_listed _ _ Hin) in Hdesc. subst description.
  unfold WeatherMCP.weather_codes in Hin.
  repeat (apply elem_of_cons in Hin as [Hin | Hin]; [discriminate Hin |]).
  by apply elem_of_nil in Hin.
Qed.
